(** * The Accelerator of pytorch_lightning, embedded in Rocq

    Source: [pytorch_lightning/accelerators/accelerator.py].

    The [Accelerator] is a coordinator that owns three lists (optimizers,
    schedulers, optimizer frequencies) and forwards every lifecycle call to
    two collaborators, a training-type plugin and a precision plugin.  The
    embedding below keeps that shape:

    - Python values that travel through the accelerator (batches, optimizer
      state) are a first-order tree type [PyVal];
    - optimizers are mutable objects shared between the accelerator and the
      plugins, so they live in a store indexed by references ([OptRef]);
    - a method of the accelerator is a computation in a small monad [M] that
      threads the accelerator's fields and the collaborators' world, may
      raise a Python exception, and records every call that crosses the
      accelerator's boundary as an [Event];
    - a plugin is a record of hooks over the world; a hook may change the
      world and may raise.

    The lifecycle methods, [batch_to_device], [backward], the optimizer
    state methods and the two queries come first; the step methods,
    [optimizer_step], [optimizer_zero_grad] and [on_train_start] follow in
    a part of their own.  The properties [precision] and [scaler] and the
    generator behind [model_sharded_context] are left out. *)

From Stdlib Require Import ZArith.
From stdpp Require Import base option list strings functions gmap fin_maps.

Set Warnings "-register-all".

Open Scope Z_scope.
Open Scope string_scope.
Open Scope list_scope.

(** ** Devices and tensors *)

(** A [torch.device]: a device type with an optional ordinal.  Every
    [torch.device] object is truthy, so [device or self.root_device] falls
    back to the root device exactly when [device] is [None]. *)
Inductive Device : Type :=
| cpu
| cuda (index : nat)
| xla (index : nat)
| ipu (index : nat).

#[global] Instance Device_eq_dec : EqDecision Device.
Proof. solve_decision. Defined.

(** A tensor is its numeric payload together with the device that holds it.
    The payload is kept abstract (a list of integers): no property here
    depends on floating-point arithmetic. *)
Record Tensor : Type := mkTensor {
  payload : list Z;
  device : Device
}.

#[global] Instance Tensor_eq_dec : EqDecision Tensor.
Proof. solve_decision. Defined.

(** [Tensor.to(device)]: same payload, new placement. *)
Definition tensor_to (t : Tensor) (d : Device) : Tensor :=
  {| payload := payload t; device := d |}.

(** ** Python values *)

(** The values the accelerator passes around without looking inside:
    batches, optimizer-state entries, exported optimizer state.  Mappings
    are association lists in insertion order, as a Python [dict] iterates. *)
Inductive PyVal : Type :=
| VNone
| VBool (b : bool)
| VInt (z : Z)
| VStr (s : string)
| VTensor (t : Tensor)
| VList (items : list PyVal)
| VTuple (items : list PyVal)
| VDict (entries : list (string * PyVal)).

(** [isinstance(v, torch.Tensor)] *)
Definition isinstance_Tensor (v : PyVal) : bool :=
  match v with
  | VTensor _ => true
  | _ => false
  end.

(** The induction principle Rocq generates for [PyVal] says nothing about
    the values nested in the lists; this one does. *)
Section PyVal_induction.
Variable P : PyVal -> Prop.
Hypothesis HNone : P VNone.
Hypothesis HBool : forall b, P (VBool b).
Hypothesis HInt : forall z, P (VInt z).
Hypothesis HStr : forall s, P (VStr s).
Hypothesis HTensor : forall t, P (VTensor t).
Hypothesis HList : forall items, Forall P items -> P (VList items).
Hypothesis HTuple : forall items, Forall P items -> P (VTuple items).
Hypothesis HDict :
  forall entries, Forall (fun kv => P (snd kv)) entries -> P (VDict entries).

Fixpoint PyVal_nested_ind (v : PyVal) : P v :=
  match v with
  | VNone => HNone
  | VBool b => HBool b
  | VInt z => HInt z
  | VStr s => HStr s
  | VTensor t => HTensor t
  | VList items =>
      HList items
        ((fix go (l : list PyVal) : Forall P l :=
            match l with
            | [] => @List.Forall_nil _ P
            | x :: l' => @List.Forall_cons _ P x l' (PyVal_nested_ind x) (go l')
            end) items)
  | VTuple items =>
      HTuple items
        ((fix go (l : list PyVal) : Forall P l :=
            match l with
            | [] => @List.Forall_nil _ P
            | x :: l' => @List.Forall_cons _ P x l' (PyVal_nested_ind x) (go l')
            end) items)
  | VDict entries =>
      HDict entries
        ((fix go (l : list (string * PyVal))
            : Forall (fun kv => P (snd kv)) l :=
            match l with
            | [] => @List.Forall_nil _ _
            | kv :: l' =>
                @List.Forall_cons _ (fun kv => P (snd kv)) kv l'
                  (PyVal_nested_ind (snd kv)) (go l')
            end) entries)
  end.
End PyVal_induction.

(** ** Helpers of [pytorch_lightning.utilities.apply_func] *)

(** Modelled from the spec: [apply_to_collection] lives in
    [pytorch_lightning/utilities/apply_func.py], which is not part of the
    sources at hand.  The spec describes its use as a recursive walk over
    "tensors possibly nested in mappings/sequences" that yields "identical
    structure" with the function applied at every leaf of the wanted type
    and "non-tensor leaves unchanged".  [dtype] is the [isinstance] test,
    [function] the callable and [arg] its extra positional argument. *)
Fixpoint apply_to_collection {X : Type} (data : PyVal) (dtype : PyVal -> bool)
    (function : PyVal -> X -> PyVal) (arg : X) : PyVal :=
  if dtype data then function data arg
  else
    match data with
    | VList items =>
        VList (map (fun d => apply_to_collection d dtype function arg) items)
    | VTuple items =>
        VTuple (map (fun d => apply_to_collection d dtype function arg) items)
    | VDict entries =>
        VDict (map (fun kv => (fst kv,
                               apply_to_collection (snd kv) dtype function arg))
                 entries)
    | leaf => leaf
    end.

(** The per-tensor transfer [data.to(device)]; values that are not tensors
    have no [to] and are handed back. *)
Definition batch_to (data : PyVal) (d : Device) : PyVal :=
  match data with
  | VTensor t => VTensor (tensor_to t d)
  | other => other
  end.

(** Modelled from the spec: [move_data_to_device] is the second helper of
    the same missing file, "a generic recursive device move" of a batch:
    every tensor of the collection is transferred to [device]. *)
Definition move_data_to_device (batch : PyVal) (d : Device) : PyVal :=
  apply_to_collection batch isinstance_Tensor batch_to d.

(** ** Optimizers, schedulers and the trainer *)

(** A [torch.optim.Optimizer] object.  [state] is the mapping [opt.state]
    (one entry per parameter, the key standing for the parameter); the
    export method [state_dict()] belongs to the optimizer's class and reads
    the state the object has when it is called. *)
Module Optimizer.
Record t : Type := mk {
  state : gmap string PyVal;
  state_dict_impl : gmap string PyVal -> PyVal
}.

Definition state_dict (x : t) : PyVal := state_dict_impl x (state x).

(** [self.state = new_state] *)
Definition with_state (x : t) (new_state : gmap string PyVal) : t :=
  {| state := new_state; state_dict_impl := state_dict_impl x |}.
End Optimizer.

(** Optimizers are shared objects: the plugin that built them, the precision
    plugin that wraps them and the accelerator's list all point to the same
    ones.  A reference names an object of the store; as in Python, every
    reference denotes an object. *)
Abbreviation OptRef := nat (only parsing).
Abbreviation Store := (OptRef -> Optimizer.t) (only parsing).

(** A [torch.nn.Module] is only ever handed on, so a reference is enough. *)
Abbreviation ModuleRef := nat (only parsing).

(** Modelled from the spec: [TrainerFn] is declared in
    [pytorch_lightning/trainer/states.py], not part of the sources at hand;
    the spec names the run modes "fitting" and "tuning" and opposes them to
    "pure evaluation/prediction runs". *)
Inductive TrainerFn : Type :=
| FITTING
| VALIDATING
| TESTING
| PREDICTING
| TUNING.

#[global] Instance TrainerFn_eq_dec : EqDecision TrainerFn.
Proof. solve_decision. Defined.

(** The part of [pl.Trainer] the accelerator reads: [trainer.state.fn],
    which is [None] until a run mode is chosen. *)
Module Trainer.
Record State : Type := mkState { fn : option TrainerFn }.
Record t : Type := mk { state : State }.
End Trainer.

(** ** Exceptions and outcomes *)

Inductive Exn : Type :=
| NotImplementedError
| Raised (name : string).   (* whatever a collaborator raises *)

Inductive Outcome (A : Type) : Type :=
| Ok (a : A)
| Raise (e : Exn).
Arguments Ok {A} a.
Arguments Raise {A} e.

(** ** Events: the calls that leave the accelerator *)

(** One constructor per hook of a collaborator, with the arguments of the
    call; [Acc_setup_optimizers] marks an entry into the accelerator's own
    [setup_optimizers], the only internal call the properties count. *)
Inductive Event : Type :=
| TT_setup_environment
| TT_setup
| TT_pre_dispatch
| TT_dispatch (trainer : Trainer.t)
| TT_post_dispatch (trainer : Trainer.t)
| TT_teardown
| TT_init_optimizers (trainer : Trainer.t) (model : option ModuleRef)
| TT_pre_backward (closure_loss : Tensor)
| TT_post_backward (closure_loss : Tensor)
| TT_optimizer_state (optimizer : OptRef)
| PP_connect (model : ModuleRef) (optimizers : list OptRef)
    (lr_schedulers : list PyVal)
| PP_pre_dispatch
| PP_dispatch (trainer : Trainer.t)
| PP_post_dispatch
| PP_pre_backward (model : option ModuleRef) (closure_loss : Tensor)
| PP_backward (model : option ModuleRef) (closure_loss : Tensor)
    (args : list PyVal) (kwargs : list (string * PyVal))
| PP_post_backward (model : option ModuleRef) (closure_loss : Tensor)
| LM_apply_batch_transfer_handler (model : ModuleRef) (batch : PyVal)
    (device : Device) (dataloader_idx : Z)
| Acc_setup_optimizers (trainer : Trainer.t).

(** ** The world of the collaborators *)

(** Everything a hook can read or change: the private state of the two
    plugins and of the model ([PS], left abstract) and the optimizer
    objects. *)
Record World (PS : Type) : Type := mkWorld {
  plugin_state : PS;
  store : Store
}.
Arguments mkWorld {PS} _ _.
Arguments plugin_state {PS} _.
Arguments store {PS} _.

(** A hook runs in the world, changes it, and returns or raises. *)
Definition Hook (PS A : Type) : Type := World PS -> Outcome A * World PS.

(** The pure [LightningModule]: its reference and the one hook of it that
    the accelerator calls in the methods modelled here. *)
Module LightningModule.
Record t (PS : Type) : Type := mk {
  ref : ModuleRef;
  _apply_batch_transfer_handler : PyVal -> Device -> Z -> Hook PS PyVal
}.
Arguments mk {PS} _ _.
Arguments ref {PS} _.
Arguments _apply_batch_transfer_handler {PS} _ _ _ _.
End LightningModule.

(** ** The accelerator's monad *)

(** The mutable part of an [Accelerator] object (its three lists) together
    with the world its plugins live in. *)
Record State (PS : Type) : Type := mkState {
  optimizers : list OptRef;
  lr_schedulers : list PyVal;
  optimizer_frequencies : list Z;
  world : World PS
}.
Arguments mkState {PS} _ _ _ _.
Arguments optimizers {PS} _.
Arguments lr_schedulers {PS} _.
Arguments optimizer_frequencies {PS} _.
Arguments world {PS} _.

(** A method: from a state to an outcome, the state left behind and the
    events emitted on the way. *)
Definition M (PS A : Type) : Type :=
  State PS -> Outcome A * State PS * list Event.

Section Monad.
Context {PS : Type}.

Definition ret {A} (a : A) : M PS A := fun s => (Ok a, s, []).

Definition bind {A B} (m : M PS A) (f : A -> M PS B) : M PS B :=
  fun s =>
    match m s with
    | (Ok a, s1, evs1) =>
        match f a s1 with
        | (r, s2, evs2) => (r, s2, evs1 ++ evs2)
        end
    | (Raise e, s1, evs1) => (Raise e, s1, evs1)
    end.

Definition raise {A} (e : Exn) : M PS A := fun s => (Raise e, s, []).

Definition gets {A} (f : State PS -> A) : M PS A := fun s => (Ok (f s), s, []).

Definition modify (f : State PS -> State PS) : M PS unit :=
  fun s => (Ok tt, f s, []).

Definition emit (ev : Event) : M PS unit := fun s => (Ok tt, s, [ev]).

Definition with_world (s : State PS) (w : World PS) : State PS :=
  {| optimizers := optimizers s;
     lr_schedulers := lr_schedulers s;
     optimizer_frequencies := optimizer_frequencies s;
     world := w |}.

(** Calling a hook of a collaborator: the event is recorded, the hook runs
    in the current world, and what it raises propagates. *)
Definition call {A} (ev : Event) (h : Hook PS A) : M PS A :=
  fun s =>
    match h (world s) with
    | (r, w) => (r, with_world s w, [ev])
    end.
End Monad.

Declare Scope acc_scope.
Delimit Scope acc_scope with acc.
Notation "'let*' x ':=' c1 'in' c2" := (bind c1 (fun x => c2))
  (at level 10, x name, c1 at level 100, c2 at level 200) : acc_scope.
Notation "'let*' ' p ':=' c1 'in' c2" :=
  (bind c1 (fun x => match x with p => c2 end))
  (at level 10, p pattern, c1 at level 100, c2 at level 200) : acc_scope.
Notation "c1 ;; c2" := (bind c1 (fun _ => c2))
  (at level 100, c2 at level 200, right associativity) : acc_scope.

(** ** The two plugin interfaces *)

(** Modelled from the spec: the classes of
    [pytorch_lightning/plugins/training_type] are not part of the sources at
    hand.  The accelerator asks one question about the class of its
    training-type plugin, whether it is the data-parallel variant. *)
Inductive TrainingTypeVariant : Type :=
| DataParallel
| OtherTrainingType (name : string).

(** Modelled from the spec: the classes of
    [pytorch_lightning/plugins/precision] are not part of the sources at
    hand.  The spec speaks of "known precision-plugin variants": the Apex
    variant, the native-AMP variant, and the others. *)
Inductive PrecisionVariant : Type :=
| ApexMixedPrecision
| NativeMixedPrecision
| OtherPrecision (name : string).

(** The capability set of a training-type plugin (spec, section 6), as far
    as the methods modelled here use it.  [model] and [lightning_module] are
    properties read from the plugin at every use; the flag
    [setup_optimizers_in_pre_dispatch] is a capability of the plugin's
    class, the same at every read; [optimizer_state] is an optional
    method. *)
Module TrainingTypePlugin.
Record t (PS : Type) : Type := mk {
  variant : TrainingTypeVariant;
  setup_optimizers_in_pre_dispatch : bool;
  setup_environment : Hook PS unit;
  setup : Hook PS unit;
  pre_dispatch : Hook PS unit;
  dispatch : Trainer.t -> Hook PS unit;
  post_dispatch : Trainer.t -> Hook PS unit;
  teardown : Hook PS unit;
  model : World PS -> ModuleRef;
  set_model : ModuleRef -> World PS -> World PS;
  lightning_module : World PS -> option (LightningModule.t PS);
  root_device : World PS -> Device;
  init_optimizers :
    Trainer.t -> option (LightningModule.t PS) ->
    Hook PS (list OptRef * list PyVal * list Z);
  pre_backward : Tensor -> Hook PS PyVal;
  post_backward : Tensor -> Hook PS PyVal;
  optimizer_state : option (OptRef -> Hook PS PyVal)
}.
Arguments variant {PS} _.
Arguments setup_optimizers_in_pre_dispatch {PS} _.
Arguments setup_environment {PS} _ _.
Arguments setup {PS} _ _.
Arguments pre_dispatch {PS} _ _.
Arguments dispatch {PS} _ _ _.
Arguments post_dispatch {PS} _ _ _.
Arguments teardown {PS} _ _.
Arguments model {PS} _ _.
Arguments set_model {PS} _ _ _.
Arguments lightning_module {PS} _ _.
Arguments root_device {PS} _ _.
Arguments init_optimizers {PS} _ _ _ _.
Arguments pre_backward {PS} _ _ _.
Arguments post_backward {PS} _ _ _.
Arguments optimizer_state {PS} _.

(** [isinstance(plugin, DataParallelPlugin)] *)
Definition isinstance_DataParallelPlugin {PS} (p : t PS) : bool :=
  match variant p with
  | DataParallel => true
  | OtherTrainingType _ => false
  end.
End TrainingTypePlugin.

(** The capability set of a precision plugin (spec, section 6). *)
Module PrecisionPlugin.
Record t (PS : Type) : Type := mk {
  variant : PrecisionVariant;
  connect :
    ModuleRef -> list OptRef -> list PyVal ->
    Hook PS (ModuleRef * list OptRef * list PyVal);
  pre_dispatch : Hook PS unit;
  dispatch : Trainer.t -> Hook PS unit;
  post_dispatch : Hook PS unit;
  pre_backward : option (LightningModule.t PS) -> Tensor -> Hook PS Tensor;
  backward :
    option (LightningModule.t PS) -> Tensor -> list PyVal ->
    list (string * PyVal) -> Hook PS unit;
  post_backward : option (LightningModule.t PS) -> Tensor -> Hook PS Tensor
}.
Arguments variant {PS} _.
Arguments connect {PS} _ _ _ _ _.
Arguments pre_dispatch {PS} _ _.
Arguments dispatch {PS} _ _ _.
Arguments post_dispatch {PS} _ _.
Arguments pre_backward {PS} _ _ _ _.
Arguments backward {PS} _ _ _ _ _ _.
Arguments post_backward {PS} _ _ _ _.

(** [isinstance(plugin, ApexMixedPrecisionPlugin)] *)
Definition isinstance_ApexMixedPrecisionPlugin {PS} (p : t PS) : bool :=
  match variant p with
  | ApexMixedPrecision => true
  | _ => false
  end.

(** [isinstance(plugin, NativeMixedPrecisionPlugin)] *)
Definition isinstance_NativeMixedPrecisionPlugin {PS} (p : t PS) : bool :=
  match variant p with
  | NativeMixedPrecision => true
  | _ => false
  end.
End PrecisionPlugin.

(** Modelled from the spec: [AMPType] is declared in
    [pytorch_lightning/utilities/enums.py], not part of the sources at hand;
    the accelerator uses its members [APEX] and [NATIVE]. *)
Inductive AMPType : Type :=
| APEX
| NATIVE.

(** ** The accelerator *)

Module Accelerator.
(** The two plugins are fixed when the accelerator is built. *)
Record t (PS : Type) : Type := mk {
  precision_plugin : PrecisionPlugin.t PS;
  training_type_plugin : TrainingTypePlugin.t PS
}.
Arguments mk {PS} _ _.
Arguments precision_plugin {PS} _.
Arguments training_type_plugin {PS} _.

Section Methods.
Context {PS : Type}.
Local Open Scope acc_scope.

(** [__init__]: the three lists start empty. *)
Definition init (w : World PS) : State PS :=
  {| optimizers := [];
     lr_schedulers := [];
     optimizer_frequencies := [];
     world := w |}.

(** Assignments to the three attributes and to the store. *)
Definition set_optimizers (v : list OptRef) : M PS unit :=
  modify (fun s =>
    {| optimizers := v;
       lr_schedulers := lr_schedulers s;
       optimizer_frequencies := optimizer_frequencies s;
       world := world s |}).

Definition set_lr_schedulers (v : list PyVal) : M PS unit :=
  modify (fun s =>
    {| optimizers := optimizers s;
       lr_schedulers := v;
       optimizer_frequencies := optimizer_frequencies s;
       world := world s |}).

Definition set_optimizer_frequencies (v : list Z) : M PS unit :=
  modify (fun s =>
    {| optimizers := optimizers s;
       lr_schedulers := lr_schedulers s;
       optimizer_frequencies := v;
       world := world s |}).

(** [opt.state[p] = v], on the shared optimizer object. *)
Definition set_state_entry (opt : OptRef) (p : string) (v : PyVal)
    : M PS unit :=
  modify (fun s =>
    with_world s
      {| plugin_state := plugin_state (world s);
         store :=
           alter (fun o =>
                    Optimizer.with_state o (<[p := v]> (Optimizer.state o)))
                 opt (store (world s)) |}).

(** A [for] loop whose body returns nothing. *)
Fixpoint for_each {A} (l : list A) (body : A -> M PS unit) : M PS unit :=
  match l with
  | [] => ret tt
  | x :: l' => body x ;; for_each l' body
  end.

Variable self : t PS.

Definition setup_environment : M PS unit :=
  call TT_setup_environment
    (TrainingTypePlugin.setup_environment (training_type_plugin self)).

(** The properties [model], [lightning_module] and [root_device] forward
    to the training-type plugin at every read. *)
Definition model : M PS ModuleRef :=
  gets (fun s => TrainingTypePlugin.model (training_type_plugin self) (world s)).

Definition set_model (new_model : ModuleRef) : M PS unit :=
  modify (fun s =>
    with_world s
      (TrainingTypePlugin.set_model (training_type_plugin self)
         new_model (world s))).

Definition lightning_module : M PS (option (LightningModule.t PS)) :=
  gets (fun s =>
    TrainingTypePlugin.lightning_module (training_type_plugin self) (world s)).

Definition root_device : M PS Device :=
  gets (fun s =>
    TrainingTypePlugin.root_device (training_type_plugin self) (world s)).

Definition setup_optimizers (trainer : Trainer.t) : M PS unit :=
  emit (Acc_setup_optimizers trainer) ;;
  if bool_decide (Trainer.fn (Trainer.state trainer)
                    ∉ [Some FITTING; Some TUNING])
  then ret tt
  else
    let* lm := lightning_module in
    let* ' (optimizers, lr_schedulers, optimizer_frequencies) :=
      call (TT_init_optimizers trainer (LightningModule.ref <$> lm))
        (TrainingTypePlugin.init_optimizers (training_type_plugin self)
           trainer lm) in
    set_optimizers optimizers ;;
    set_lr_schedulers lr_schedulers ;;
    set_optimizer_frequencies optimizer_frequencies.

Definition setup_training_type_plugin : M PS unit :=
  call TT_setup (TrainingTypePlugin.setup (training_type_plugin self)).

Definition setup_precision_plugin : M PS unit :=
  let* m := model in
  let* opts := gets optimizers in
  let* scheds := gets lr_schedulers in
  let* ' (model, optimizers, schedulers) :=
    call (PP_connect m opts scheds)
      (PrecisionPlugin.connect (precision_plugin self) m opts scheds) in
  set_model model ;;
  set_optimizers optimizers ;;
  set_lr_schedulers schedulers.

Definition setup (trainer : Trainer.t) : M PS unit :=
  setup_training_type_plugin ;;
  (if negb (TrainingTypePlugin.setup_optimizers_in_pre_dispatch
              (training_type_plugin self))
   then setup_optimizers trainer
   else ret tt) ;;
  setup_precision_plugin.

(** The items of [opt.state] are read from the dictionary as it is when
    the inner loop starts; the loop only assigns to keys that exist, and
    each key is visited once, so no entry is read after it was written. *)
Definition _move_optimizer_state (device : option Device) : M PS unit :=
  let* root := root_device in
  let device := default root device in
  let* opts := gets optimizers in
  for_each opts (fun opt =>
    let* items :=
      gets (fun s => map_to_list (Optimizer.state (store (world s) opt))) in
    for_each items (fun pv =>
      set_state_entry opt (fst pv)
        (apply_to_collection (snd pv) isinstance_Tensor
           move_data_to_device device))).

Definition pre_dispatch (trainer : Trainer.t) : M PS unit :=
  _move_optimizer_state None ;;
  call TT_pre_dispatch
    (TrainingTypePlugin.pre_dispatch (training_type_plugin self)) ;;
  (if TrainingTypePlugin.setup_optimizers_in_pre_dispatch
        (training_type_plugin self)
   then setup_optimizers trainer
   else ret tt) ;;
  call PP_pre_dispatch (PrecisionPlugin.pre_dispatch (precision_plugin self)).

Definition dispatch (trainer : Trainer.t) : M PS unit :=
  call (TT_dispatch trainer)
    (TrainingTypePlugin.dispatch (training_type_plugin self) trainer) ;;
  call (PP_dispatch trainer)
    (PrecisionPlugin.dispatch (precision_plugin self) trainer).

Definition post_dispatch (trainer : Trainer.t) : M PS unit :=
  call (TT_post_dispatch trainer)
    (TrainingTypePlugin.post_dispatch (training_type_plugin self) trainer) ;;
  call PP_post_dispatch
    (PrecisionPlugin.post_dispatch (precision_plugin self)).

Definition teardown : M PS unit :=
  call TT_teardown (TrainingTypePlugin.teardown (training_type_plugin self)).

Definition batch_to_device (batch : PyVal) (device : option Device)
    (dataloader_idx : Z) : M PS PyVal :=
  let* model := lightning_module in
  let* root := root_device in
  let device := default root device in
  match model,
        TrainingTypePlugin.isinstance_DataParallelPlugin
          (training_type_plugin self) with
  | Some m, false =>
      (* no need to transfer batch to device in DP mode *)
      call (LM_apply_batch_transfer_handler (LightningModule.ref m)
              batch device dataloader_idx)
        (LightningModule._apply_batch_transfer_handler m
           batch device dataloader_idx)
  | _, _ => ret (move_data_to_device batch device)
  end.

Definition backward (closure_loss : Tensor) (args : list PyVal)
    (kwargs : list (string * PyVal)) : M PS Tensor :=
  call (TT_pre_backward closure_loss)
    (TrainingTypePlugin.pre_backward (training_type_plugin self)
       closure_loss) ;;
  let* lm := lightning_module in
  let* closure_loss :=
    call (PP_pre_backward (LightningModule.ref <$> lm) closure_loss)
      (PrecisionPlugin.pre_backward (precision_plugin self)
         lm closure_loss) in
  let* lm := lightning_module in
  call (PP_backward (LightningModule.ref <$> lm) closure_loss args kwargs)
    (PrecisionPlugin.backward (precision_plugin self)
       lm closure_loss args kwargs) ;;
  let* lm := lightning_module in
  let* closure_loss :=
    call (PP_post_backward (LightningModule.ref <$> lm) closure_loss)
      (PrecisionPlugin.post_backward (precision_plugin self)
         lm closure_loss) in
  call (TT_post_backward closure_loss)
    (TrainingTypePlugin.post_backward (training_type_plugin self)
       closure_loss) ;;
  ret closure_loss.

Definition amp_backend : option AMPType :=
  if PrecisionPlugin.isinstance_ApexMixedPrecisionPlugin
       (precision_plugin self)
  then Some APEX
  else if PrecisionPlugin.isinstance_NativeMixedPrecisionPlugin
            (precision_plugin self)
  then Some NATIVE
  else None.

(** [getattr(plugin, "optimizer_state", lambda x: x.state_dict())(optimizer)] *)
Definition optimizer_state (optimizer : OptRef) : M PS PyVal :=
  match TrainingTypePlugin.optimizer_state (training_type_plugin self) with
  | Some plugin_optimizer_state =>
      call (TT_optimizer_state optimizer) (plugin_optimizer_state optimizer)
  | None =>
      gets (fun s => Optimizer.state_dict (store (world s) optimizer))
  end.

(** [device] is a string or a [torch.device]. *)
Definition get_device_stats (device : string + Device) : M PS PyVal :=
  raise NotImplementedError.

(** A static method whose body is its docstring, so a call returns
    [None].  The decorator [abstractmethod] only marks the function:
    the class [Accelerator] does not use [ABCMeta], and a marked static
    method can be called on any class in either case. *)
Definition auto_device_count : M PS PyVal := ret VNone.
End Methods.
End Accelerator.

(** ** The run that drives the accelerator *)

(** Modelled from the spec: the trainer that calls the accelerator is not
    part of the sources at hand.  Section 4.1 of the spec lists the public
    operations "in required call order for a full run": environment setup,
    setup, pre-dispatch, dispatch, post-dispatch, teardown. *)
Definition full_run {PS : Type} (self : Accelerator.t PS) (trainer : Trainer.t)
    : M PS unit :=
  (Accelerator.setup_environment self ;;
   Accelerator.setup self trainer ;;
   Accelerator.pre_dispatch self trainer ;;
   Accelerator.dispatch self trainer ;;
   Accelerator.post_dispatch self trainer ;;
   Accelerator.teardown self)%acc.

(** * The forwarding methods

    The step methods, [optimizer_step], [optimizer_zero_grad] and
    [on_train_start] forward one call to a collaborator, the step methods
    inside a context of the precision plugin.  They use members of the
    plugins and of the lightning module that the methods above do not; these
    members are gathered in records of their own, and their calls in an
    event type of their own. *)

(** ** Context managers *)

(** The protocol of the [with] statement.  [__exit__] is given the
    exception that left the block, or nothing when the block completed, and
    answers whether the exception is to be swallowed (the truth value of
    what it returns). *)
Module ContextManager.
Record t (PS : Type) : Type := mk {
  __enter__ : Hook PS PyVal;
  __exit__ : option Exn -> Hook PS bool
}.
Arguments mk {PS} _ _.
Arguments __enter__ {PS} _ _.
Arguments __exit__ {PS} _ _ _.
End ContextManager.

(** ** The rest of the plugins' members *)

Module PrecisionPluginRest.
Record t (PS : Type) : Type := mk {
  train_step_context : Hook PS (ContextManager.t PS);
  val_step_context : Hook PS (ContextManager.t PS);
  test_step_context : Hook PS (ContextManager.t PS);
  predict_step_context : Hook PS (ContextManager.t PS);
  optimizer_step :
    option ModuleRef -> OptRef -> Z -> Hook PS PyVal ->
    list (string * PyVal) -> Hook PS PyVal
}.
Arguments mk {PS} _ _ _ _ _.
Arguments train_step_context {PS} _ _.
Arguments val_step_context {PS} _ _.
Arguments test_step_context {PS} _ _.
Arguments predict_step_context {PS} _ _.
Arguments optimizer_step {PS} _ _ _ _ _ _ _.
End PrecisionPluginRest.

Module TrainingTypePluginRest.
Record t (PS : Type) : Type := mk {
  training_step : list PyVal -> Hook PS PyVal;
  validation_step : list PyVal -> Hook PS PyVal;
  test_step : list PyVal -> Hook PS PyVal;
  predict_step : list PyVal -> Hook PS PyVal;
  on_train_start : Hook PS PyVal
}.
Arguments mk {PS} _ _ _ _ _.
Arguments training_step {PS} _ _ _.
Arguments validation_step {PS} _ _ _.
Arguments test_step {PS} _ _ _.
Arguments predict_step {PS} _ _ _.
Arguments on_train_start {PS} _ _.
End TrainingTypePluginRest.

(** A module given to [optimizer_step]: its reference and its truth value,
    which is false for a module whose class defines a length and that is
    empty. *)
Module ModuleArgument.
Record t : Type := mk {
  ref : ModuleRef;
  truthy : bool
}.
End ModuleArgument.

(** The calls of the forwarding methods. *)
Inductive Forwarded : Type :=
| PP_train_step_context
| PP_val_step_context
| PP_test_step_context
| PP_predict_step_context
| CM_enter
| CM_exit (exc : option Exn)
| TT_training_step (args : list PyVal)
| TT_validation_step (args : list PyVal)
| TT_test_step (args : list PyVal)
| TT_predict_step (args : list PyVal)
| PP_optimizer_step (model : option ModuleRef) (optimizer : OptRef)
    (opt_idx : Z) (kwargs : list (string * PyVal))
| LM_optimizer_zero_grad (model : ModuleRef) (current_epoch batch_idx : Z)
    (optimizer : OptRef) (opt_idx : Z)
| TT_on_train_start.

Module AcceleratorRest.

(** An accelerator with the rest of its plugins' members, and the
    [optimizer_zero_grad] method of the lightning modules. *)
Record t (PS : Type) : Type := mk {
  accelerator : Accelerator.t PS;
  precision_plugin : PrecisionPluginRest.t PS;
  training_type_plugin : TrainingTypePluginRest.t PS;
  module_optimizer_zero_grad :
    LightningModule.t PS -> Z -> Z -> OptRef -> Z -> Hook PS PyVal
}.
Arguments mk {PS} _ _ _ _.
Arguments accelerator {PS} _.
Arguments precision_plugin {PS} _.
Arguments training_type_plugin {PS} _.
Arguments module_optimizer_zero_grad {PS} _ _ _ _ _ _ _.

(** The monad of the forwarding methods: the monad of the accelerator over
    the other events. *)
Definition M (PS A : Type) : Type :=
  State PS -> Outcome A * State PS * list Forwarded.

Section Methods.
Context {PS : Type}.

Definition ret {A} (a : A) : M PS A := fun s => (Ok a, s, []).

Definition bind {A B} (m : M PS A) (f : A -> M PS B) : M PS B :=
  fun s =>
    match m s with
    | (Ok a, s1, evs1) =>
        match f a s1 with
        | (r, s2, evs2) => (r, s2, evs1 ++ evs2)
        end
    | (Raise e, s1, evs1) => (Raise e, s1, evs1)
    end.

Definition raise {A} (e : Exn) : M PS A := fun s => (Raise e, s, []).

Definition gets {A} (f : State PS -> A) : M PS A := fun s => (Ok (f s), s, []).

Definition call {A} (ev : Forwarded) (h : Hook PS A) : M PS A :=
  fun s =>
    match h (world s) with
    | (r, w) => (r, with_world s w, [ev])
    end.

(** [try]: the outcome of a block, as a value. *)
Definition attempt {A} (m : M PS A) : M PS (Outcome A) :=
  fun s =>
    match m s with
    | (r, s1, evs) => (Ok r, s1, evs)
    end.

(** [with manager: suite].  The manager is entered; when the suite
    completes, the manager is left and the value of the suite is the result;
    when the suite raises, the manager is left with the exception, which is
    raised again unless the manager swallows it, and then the statement
    completes with no value.  What [__enter__] and a leaving [__exit__]
    raise propagates. *)
Definition with_context {A} (manager : M PS (ContextManager.t PS))
    (suite : M PS A) : M PS (option A) :=
  bind manager (fun cm =>
  bind (call CM_enter (ContextManager.__enter__ cm)) (fun _ =>
  bind (attempt suite) (fun r =>
  match r with
  | Ok a =>
      bind (call (CM_exit None) (ContextManager.__exit__ cm None)) (fun _ =>
      ret (Some a))
  | Raise e =>
      bind (call (CM_exit (Some e)) (ContextManager.__exit__ cm (Some e)))
        (fun swallowed => if swallowed then ret None else raise e)
  end))).

(** A function body that is one [with] statement around a [return]: the
    value returned inside, or [None] when the statement completed without
    one. *)
Definition returning (m : M PS (option PyVal)) : M PS PyVal :=
  bind m (fun r => ret (default VNone r)).

Variable self : t PS.

Definition lightning_module : M PS (option (LightningModule.t PS)) :=
  gets (fun s =>
    TrainingTypePlugin.lightning_module
      (Accelerator.training_type_plugin (accelerator self)) (world s)).

(** [step_kwargs] is a dictionary in insertion order; the plugin is called
    with its values as positional arguments. *)
Definition training_step (step_kwargs : list (string * PyVal)) : M PS PyVal :=
  returning
    (with_context
       (call PP_train_step_context
          (PrecisionPluginRest.train_step_context (precision_plugin self)))
       (call (TT_training_step (List.map snd step_kwargs))
          (TrainingTypePluginRest.training_step (training_type_plugin self)
             (List.map snd step_kwargs)))).

Definition validation_step (step_kwargs : list (string * PyVal))
    : M PS PyVal :=
  returning
    (with_context
       (call PP_val_step_context
          (PrecisionPluginRest.val_step_context (precision_plugin self)))
       (call (TT_validation_step (List.map snd step_kwargs))
          (TrainingTypePluginRest.validation_step (training_type_plugin self)
             (List.map snd step_kwargs)))).

Definition test_step (step_kwargs : list (string * PyVal)) : M PS PyVal :=
  returning
    (with_context
       (call PP_test_step_context
          (PrecisionPluginRest.test_step_context (precision_plugin self)))
       (call (TT_test_step (List.map snd step_kwargs))
          (TrainingTypePluginRest.test_step (training_type_plugin self)
             (List.map snd step_kwargs)))).

Definition predict_step (step_kwargs : list (string * PyVal)) : M PS PyVal :=
  returning
    (with_context
       (call PP_predict_step_context
          (PrecisionPluginRest.predict_step_context (precision_plugin self)))
       (call (TT_predict_step (List.map snd step_kwargs))
          (TrainingTypePluginRest.predict_step (training_type_plugin self)
             (List.map snd step_kwargs)))).

(** [model = model or self.lightning_module]: the module given, unless none
    is given or the one given is false; what the precision plugin returns
    is dropped. *)
Definition optimizer_step (optimizer : OptRef) (opt_idx : Z)
    (closure : Hook PS PyVal) (model : option ModuleArgument.t)
    (kwargs : list (string * PyVal)) : M PS PyVal :=
  bind lightning_module (fun lm =>
  let model :=
    match model with
    | Some given =>
        if ModuleArgument.truthy given then Some (ModuleArgument.ref given)
        else LightningModule.ref <$> lm
    | None => LightningModule.ref <$> lm
    end in
  bind (call (PP_optimizer_step model optimizer opt_idx kwargs)
          (PrecisionPluginRest.optimizer_step (precision_plugin self)
             model optimizer opt_idx closure kwargs)) (fun _ =>
  ret VNone)).

(** With no lightning module attached, the attribute lookup on [None]
    raises. *)
Definition optimizer_zero_grad (current_epoch batch_idx : Z)
    (optimizer : OptRef) (opt_idx : Z) : M PS PyVal :=
  bind lightning_module (fun model_ref =>
  match model_ref with
  | None => raise (Raised "AttributeError")
  | Some m =>
      bind (call (LM_optimizer_zero_grad (LightningModule.ref m)
                    current_epoch batch_idx optimizer opt_idx)
              (module_optimizer_zero_grad self m
                 current_epoch batch_idx optimizer opt_idx)) (fun _ =>
      ret VNone)
  end).

Definition on_train_start : M PS PyVal :=
  call TT_on_train_start
    (TrainingTypePluginRest.on_train_start (training_type_plugin self)).

End Methods.
End AcceleratorRest.

(** * Vocabulary of the properties *)

(** What a computation emits from a state. *)
Definition events_of {PS A : Type} (m : M PS A) (s : State PS) : list Event :=
  snd (m s).

(** ** Counting and ordering calls *)

Definition is_setup_optimizers (ev : Event) : bool :=
  match ev with
  | Acc_setup_optimizers _ => true
  | _ => false
  end.

Definition is_init_optimizers (ev : Event) : bool :=
  match ev with
  | TT_init_optimizers _ _ => true
  | _ => false
  end.

Definition is_TT_setup (ev : Event) : bool :=
  match ev with
  | TT_setup => true
  | _ => false
  end.

Definition is_PP_connect (ev : Event) : bool :=
  match ev with
  | PP_connect _ _ _ => true
  | _ => false
  end.

Definition is_batch_transfer (ev : Event) : bool :=
  match ev with
  | LM_apply_batch_transfer_handler _ _ _ _ => true
  | _ => false
  end.

(** How many events of a trace a test selects. *)
Definition count (test : Event -> bool) (evs : list Event) : nat :=
  length (List.filter test evs).

(** Every event selected by [later] comes after one selected by [earlier]. *)
Definition precedes (earlier later : Event -> bool) (evs : list Event) : Prop :=
  forall pre ev post,
    evs = pre ++ ev :: post -> later ev = true ->
    exists ev0, ev0 ∈ pre /\ earlier ev0 = true.

(** A computation emits at most [n] selected events, however it ends. *)
Definition emits_at_most {PS A : Type} (test : Event -> bool) (n : nat)
    (m : M PS A) : Prop :=
  forall s, (count test (events_of m s) <= n)%nat.

(** A computation that returns has emitted exactly [n] selected events. *)
Definition emits_exactly {PS A : Type} (test : Event -> bool) (n : nat)
    (m : M PS A) : Prop :=
  forall s a s' evs, m s = (Ok a, s', evs) -> count test evs = n.

(** The hooks of the backward pipeline, by name. *)
Inductive BackwardHook : Type :=
| training_type_pre_backward
| precision_pre_backward
| precision_backward
| precision_post_backward
| training_type_post_backward.

Definition backward_hook (ev : Event) : option BackwardHook :=
  match ev with
  | TT_pre_backward _ => Some training_type_pre_backward
  | PP_pre_backward _ _ => Some precision_pre_backward
  | PP_backward _ _ _ _ => Some precision_backward
  | PP_post_backward _ _ => Some precision_post_backward
  | TT_post_backward _ => Some training_type_post_backward
  | _ => None
  end.

Definition backward_order : list (option BackwardHook) :=
  [Some training_type_pre_backward;
   Some precision_pre_backward;
   Some precision_backward;
   Some precision_post_backward;
   Some training_type_post_backward].

(** ** Two plugins that differ in what their backward hooks return *)

(** Two runs of a hook have the same effect: they leave the same world, and
    both return or both raise the same exception.  The returned values are
    not compared. *)
Definition same_effect {PS A : Type} (x y : Outcome A * World PS) : Prop :=
  snd x = snd y /\
  match fst x, fst y with
  | Ok _, Ok _ => True
  | Raise e1, Raise e2 => e1 = e2
  | _, _ => False
  end.

(** Two training-type plugins that differ at most in the values their
    [pre_backward] and [post_backward] hooks return. *)
Definition differ_in_backward_returns {PS : Type}
    (p q : TrainingTypePlugin.t PS) : Prop :=
  (forall w,
     TrainingTypePlugin.lightning_module p w
     = TrainingTypePlugin.lightning_module q w) /\
  (forall loss w,
     same_effect (TrainingTypePlugin.pre_backward p loss w)
                 (TrainingTypePlugin.pre_backward q loss w)) /\
  (forall loss w,
     same_effect (TrainingTypePlugin.post_backward p loss w)
                 (TrainingTypePlugin.post_backward q loss w)).

(** ** Relocated values *)

(** [relocated d v v']: [v'] has the nested structure of [v], every tensor
    leaf of [v] appears in [v'] with the same payload on device [d], and
    every other leaf is the same. *)
Inductive relocated (d : Device) : PyVal -> PyVal -> Prop :=
| relocated_None : relocated d VNone VNone
| relocated_Bool b : relocated d (VBool b) (VBool b)
| relocated_Int z : relocated d (VInt z) (VInt z)
| relocated_Str s : relocated d (VStr s) (VStr s)
| relocated_Tensor t :
    relocated d (VTensor t) (VTensor {| payload := payload t; device := d |})
| relocated_List items items' :
    Forall2 (relocated d) items items' ->
    relocated d (VList items) (VList items')
| relocated_Tuple items items' :
    Forall2 (relocated d) items items' ->
    relocated d (VTuple items) (VTuple items')
| relocated_Dict entries entries' :
    Forall2 (fun kv kv' => fst kv = fst kv' /\ relocated d (snd kv) (snd kv'))
      entries entries' ->
    relocated d (VDict entries) (VDict entries').

(** ** States that differ in the optimizer objects only *)

(** Two states that differ at most in the optimizer objects. *)
Definition same_outside_store {PS : Type} (s s' : State PS) : Prop :=
  optimizers s' = optimizers s /\
  lr_schedulers s' = lr_schedulers s /\
  optimizer_frequencies s' = optimizer_frequencies s /\
  plugin_state (world s') = plugin_state (world s).

(** ** Optimizers and their frequencies *)

(** "Whenever frequencies are used": a plugin that uses no frequencies
    leaves the list empty. *)
Definition frequencies_consistent (optimizers : list OptRef)
    (optimizer_frequencies : list Z) : Prop :=
  optimizer_frequencies <> [] ->
  length optimizers = length optimizer_frequencies.

(** The invariant of the data model, as a property of [setup]. *)
Definition lengths_agree_after_setup {PS : Type} (self : Accelerator.t PS)
    (trainer : Trainer.t) (s : State PS) : Prop :=
  forall s' evs,
    Accelerator.setup self trainer s = (Ok tt, s', evs) ->
    frequencies_consistent (optimizers s') (optimizer_frequencies s').

(** ** The three lists, kept *)

(** Two states with the same three lists. *)
Definition same_lists {PS : Type} (s s' : State PS) : Prop :=
  optimizers s' = optimizers s /\
  lr_schedulers s' = lr_schedulers s /\
  optimizer_frequencies s' = optimizer_frequencies s.



(** ** The four step methods, by kind *)

Inductive StepKind : Type :=
| Train
| Validation
| Test
| Predict.

(** The step method of a kind, the context of the precision plugin it
    enters, the step of the training-type plugin it calls, and the events of
    these two calls. *)
Definition step_method {PS : Type} (kind : StepKind)
    (self : AcceleratorRest.t PS)
    : list (string * PyVal) -> AcceleratorRest.M PS PyVal :=
  match kind with
  | Train => AcceleratorRest.training_step self
  | Validation => AcceleratorRest.validation_step self
  | Test => AcceleratorRest.test_step self
  | Predict => AcceleratorRest.predict_step self
  end.

Definition step_context {PS : Type} (kind : StepKind)
    (self : AcceleratorRest.t PS) : Hook PS (ContextManager.t PS) :=
  match kind with
  | Train =>
      PrecisionPluginRest.train_step_context
        (AcceleratorRest.precision_plugin self)
  | Validation =>
      PrecisionPluginRest.val_step_context
        (AcceleratorRest.precision_plugin self)
  | Test =>
      PrecisionPluginRest.test_step_context
        (AcceleratorRest.precision_plugin self)
  | Predict =>
      PrecisionPluginRest.predict_step_context
        (AcceleratorRest.precision_plugin self)
  end.

Definition step_hook {PS : Type} (kind : StepKind)
    (self : AcceleratorRest.t PS) : list PyVal -> Hook PS PyVal :=
  match kind with
  | Train =>
      TrainingTypePluginRest.training_step
        (AcceleratorRest.training_type_plugin self)
  | Validation =>
      TrainingTypePluginRest.validation_step
        (AcceleratorRest.training_type_plugin self)
  | Test =>
      TrainingTypePluginRest.test_step
        (AcceleratorRest.training_type_plugin self)
  | Predict =>
      TrainingTypePluginRest.predict_step
        (AcceleratorRest.training_type_plugin self)
  end.

Definition context_event (kind : StepKind) : Forwarded :=
  match kind with
  | Train => PP_train_step_context
  | Validation => PP_val_step_context
  | Test => PP_test_step_context
  | Predict => PP_predict_step_context
  end.

Definition step_event (kind : StepKind) (args : list PyVal) : Forwarded :=
  match kind with
  | Train => TT_training_step args
  | Validation => TT_validation_step args
  | Test => TT_test_step args
  | Predict => TT_predict_step args
  end.

(** What [__exit__] is given after a block with this outcome. *)
Definition raised_by {A : Type} (r : Outcome A) : option Exn :=
  match r with
  | Ok _ => None
  | Raise e => Some e
  end.

(** * Concrete plugins

    Small plugins on which the properties are run.  The private state of
    the plugins is one number, the reference of the module held in the
    training-type plugin's model slot. *)

Module Demo.

(** A hook that returns [a] and changes nothing. *)
Definition returns {A : Type} (a : A) : Hook nat A := fun w => (Ok a, w).

(** A module whose transfer hook tags the batch it moved. *)
Definition module : LightningModule.t nat :=
  LightningModule.mk 7%nat
    (fun batch device dataloader_idx =>
       returns (VTuple [VStr "custom"; move_data_to_device batch device])).

(** A training-type plugin with the given class, capability flag, attached
    module, optimizers to build and values returned by its backward hooks. *)
Definition training_type (variant : TrainingTypeVariant) (deferred : bool)
    (attached : option (LightningModule.t nat))
    (built : list OptRef * list PyVal * list Z)
    (pre_ret post_ret : PyVal) : TrainingTypePlugin.t nat :=
  {| TrainingTypePlugin.variant := variant;
     TrainingTypePlugin.setup_optimizers_in_pre_dispatch := deferred;
     TrainingTypePlugin.setup_environment := returns tt;
     TrainingTypePlugin.setup := returns tt;
     TrainingTypePlugin.pre_dispatch := returns tt;
     TrainingTypePlugin.dispatch := fun _ => returns tt;
     TrainingTypePlugin.post_dispatch := fun _ => returns tt;
     TrainingTypePlugin.teardown := returns tt;
     TrainingTypePlugin.model := fun w => plugin_state w;
     TrainingTypePlugin.set_model :=
       fun m w => {| plugin_state := m; store := store w |};
     TrainingTypePlugin.lightning_module := fun _ => attached;
     TrainingTypePlugin.root_device := fun _ => cuda 0;
     TrainingTypePlugin.init_optimizers := fun _ _ => returns built;
     TrainingTypePlugin.pre_backward := fun _ => returns pre_ret;
     TrainingTypePlugin.post_backward := fun _ => returns post_ret;
     TrainingTypePlugin.optimizer_state := None |}.

Definition single_device (deferred : bool) : TrainingTypePlugin.t nat :=
  training_type (OtherTrainingType "SingleDevicePlugin") deferred (Some module)
    ([1%nat; 2%nat], [VStr "step_lr"], [1; 1]) VNone VNone.

Definition data_parallel : TrainingTypePlugin.t nat :=
  training_type DataParallel false (Some module)
    ([1%nat; 2%nat], [VStr "step_lr"], [1; 1]) VNone VNone.

(** A training-type plugin that builds two optimizers and one frequency. *)
Definition mismatched : TrainingTypePlugin.t nat :=
  training_type (OtherTrainingType "SingleDevicePlugin") false (Some module)
    ([1%nat; 2%nat], [], [5]) VNone VNone.

(** Loss scaling by two, on the payload. *)
Definition scale (loss : Tensor) : Tensor :=
  {| payload := List.map (Z.mul 2) (payload loss); device := device loss |}.

(** A precision plugin with the given class whose [connect] hands back the
    optimizers rearranged by [rewrap]. *)
Definition precision (variant : PrecisionVariant)
    (rewrap : list OptRef -> list OptRef) : PrecisionPlugin.t nat :=
  {| PrecisionPlugin.variant := variant;
     PrecisionPlugin.connect :=
       fun m opts scheds => returns (m, rewrap opts, scheds);
     PrecisionPlugin.pre_dispatch := returns tt;
     PrecisionPlugin.dispatch := fun _ => returns tt;
     PrecisionPlugin.post_dispatch := returns tt;
     PrecisionPlugin.pre_backward := fun _ loss => returns (scale loss);
     PrecisionPlugin.backward := fun _ _ _ _ => returns tt;
     PrecisionPlugin.post_backward := fun _ loss => returns loss |}.

Definition native_amp : PrecisionPlugin.t nat :=
  precision NativeMixedPrecision (fun opts => opts).

(** A precision plugin whose [connect] hands back one optimizer that stands
    for all those it was given. *)
Definition fusing : PrecisionPlugin.t nat :=
  precision (OtherPrecision "FusingPrecisionPlugin") (take 1).

(** An exporter that lists the state it is given. *)
Definition export (st : gmap string PyVal) : PyVal := VDict (map_to_list st).

(** The optimizer of the spec's example: its state is [{"a": 1}]. *)
Definition optimizer_a : Optimizer.t :=
  Optimizer.mk {[ "a" := VInt 1 ]} export.

(** An optimizer with a tensor of moments on the CPU and a step count. *)
Definition adam : Optimizer.t :=
  Optimizer.mk
    {[ "w" := VDict [("step", VInt 3);
                     ("exp_avg", VTensor {| payload := [4; 5]; device := cpu |})] ]}
    export.

(** A world whose model slot holds module 7 and whose store holds [adam]
    at references 1 and 2 and [optimizer_a] elsewhere. *)
Definition world0 : World nat :=
  {| plugin_state := 7%nat;
     store := fun o => match o with
                       | 1%nat | 2%nat => adam
                       | _ => optimizer_a
                       end |}.

Definition fit : Trainer.t := Trainer.mk (Trainer.mkState (Some FITTING)).
Definition predict : Trainer.t := Trainer.mk (Trainer.mkState (Some PREDICTING)).

Definition loss : Tensor := {| payload := [3]; device := cuda 0 |}.

End Demo.

(** Concrete members for the forwarding methods.  Here the number in the
    plugins' state tells whether mixed precision is switched on. *)
Module DemoRest.

(** A context that switches mixed precision on and off again, and swallows
    exceptions or not. *)
Definition autocast (swallow : bool) : ContextManager.t nat :=
  {| ContextManager.__enter__ :=
       fun w => (Ok VNone, {| plugin_state := 1%nat; store := store w |});
     ContextManager.__exit__ :=
       fun _ w => (Ok swallow, {| plugin_state := 0%nat; store := store w |}) |}.

Definition precision (swallow : bool) : PrecisionPluginRest.t nat :=
  {| PrecisionPluginRest.train_step_context := Demo.returns (autocast swallow);
     PrecisionPluginRest.val_step_context := Demo.returns (autocast swallow);
     PrecisionPluginRest.test_step_context := Demo.returns (autocast swallow);
     PrecisionPluginRest.predict_step_context :=
       Demo.returns (autocast swallow);
     PrecisionPluginRest.optimizer_step :=
       fun _ _ _ closure _ => closure |}.

(** A step that reports whether mixed precision is on and its first
    argument, and raises when it is given no argument. *)
Definition step (args : list PyVal) : Hook nat PyVal :=
  fun w =>
    match args with
    | [] => (Raise (Raised "TypeError"), w)
    | batch :: _ => (Ok (VTuple [VInt (Z.of_nat (plugin_state w)); batch]), w)
    end.

Definition training_type : TrainingTypePluginRest.t nat :=
  {| TrainingTypePluginRest.training_step := step;
     TrainingTypePluginRest.validation_step := step;
     TrainingTypePluginRest.test_step := step;
     TrainingTypePluginRest.predict_step := step;
     TrainingTypePluginRest.on_train_start := Demo.returns VNone |}.

(** A precision plugin whose [connect] raises. *)
Definition refusing : PrecisionPlugin.t nat :=
  {| PrecisionPlugin.variant := ApexMixedPrecision;
     PrecisionPlugin.connect :=
       fun _ _ _ w => (Raise (Raised "MisconfigurationException"), w);
     PrecisionPlugin.pre_dispatch := Demo.returns tt;
     PrecisionPlugin.dispatch := fun _ => Demo.returns tt;
     PrecisionPlugin.post_dispatch := Demo.returns tt;
     PrecisionPlugin.pre_backward := fun _ loss => Demo.returns loss;
     PrecisionPlugin.backward := fun _ _ _ _ => Demo.returns tt;
     PrecisionPlugin.post_backward := fun _ loss => Demo.returns loss |}.

(** A training-type plugin whose [pre_dispatch] raises. *)
Definition stalling : TrainingTypePlugin.t nat :=
  let plain := Demo.single_device false in
  {| TrainingTypePlugin.variant := TrainingTypePlugin.variant plain;
     TrainingTypePlugin.setup_optimizers_in_pre_dispatch := false;
     TrainingTypePlugin.setup_environment := Demo.returns tt;
     TrainingTypePlugin.setup := Demo.returns tt;
     TrainingTypePlugin.pre_dispatch :=
       fun w => (Raise (Raised "RuntimeError"), w);
     TrainingTypePlugin.dispatch := fun _ => Demo.returns tt;
     TrainingTypePlugin.post_dispatch := fun _ => Demo.returns tt;
     TrainingTypePlugin.teardown := Demo.returns tt;
     TrainingTypePlugin.model := TrainingTypePlugin.model plain;
     TrainingTypePlugin.set_model := TrainingTypePlugin.set_model plain;
     TrainingTypePlugin.lightning_module :=
       TrainingTypePlugin.lightning_module plain;
     TrainingTypePlugin.root_device := TrainingTypePlugin.root_device plain;
     TrainingTypePlugin.init_optimizers :=
       TrainingTypePlugin.init_optimizers plain;
     TrainingTypePlugin.pre_backward := TrainingTypePlugin.pre_backward plain;
     TrainingTypePlugin.post_backward := TrainingTypePlugin.post_backward plain;
     TrainingTypePlugin.optimizer_state := None |}.

(** A precision plugin whose [backward] raises. *)
Definition diverging : PrecisionPlugin.t nat :=
  {| PrecisionPlugin.variant := NativeMixedPrecision;
     PrecisionPlugin.connect := fun m opts scheds => Demo.returns (m, opts, scheds);
     PrecisionPlugin.pre_dispatch := Demo.returns tt;
     PrecisionPlugin.dispatch := fun _ => Demo.returns tt;
     PrecisionPlugin.post_dispatch := Demo.returns tt;
     PrecisionPlugin.pre_backward := fun _ loss => Demo.returns (Demo.scale loss);
     PrecisionPlugin.backward :=
       fun _ _ _ _ w => (Raise (Raised "RuntimeError"), w);
     PrecisionPlugin.post_backward := fun _ loss => Demo.returns loss |}.

(** A training-type plugin whose [init_optimizers] raises. *)
Definition unbuildable : TrainingTypePlugin.t nat :=
  let plain := Demo.single_device false in
  {| TrainingTypePlugin.variant := TrainingTypePlugin.variant plain;
     TrainingTypePlugin.setup_optimizers_in_pre_dispatch := false;
     TrainingTypePlugin.setup_environment := Demo.returns tt;
     TrainingTypePlugin.setup := Demo.returns tt;
     TrainingTypePlugin.pre_dispatch := Demo.returns tt;
     TrainingTypePlugin.dispatch := fun _ => Demo.returns tt;
     TrainingTypePlugin.post_dispatch := fun _ => Demo.returns tt;
     TrainingTypePlugin.teardown := Demo.returns tt;
     TrainingTypePlugin.model := TrainingTypePlugin.model plain;
     TrainingTypePlugin.set_model := TrainingTypePlugin.set_model plain;
     TrainingTypePlugin.lightning_module :=
       TrainingTypePlugin.lightning_module plain;
     TrainingTypePlugin.root_device := TrainingTypePlugin.root_device plain;
     TrainingTypePlugin.init_optimizers :=
       fun _ _ w => (Raise (Raised "MisconfigurationException"), w);
     TrainingTypePlugin.pre_backward := TrainingTypePlugin.pre_backward plain;
     TrainingTypePlugin.post_backward := TrainingTypePlugin.post_backward plain;
     TrainingTypePlugin.optimizer_state := None |}.

(** An accelerator with or without a lightning module attached. *)
Definition accelerator (attached : option (LightningModule.t nat))
    (swallow : bool) : AcceleratorRest.t nat :=
  {| AcceleratorRest.accelerator :=
       Accelerator.mk Demo.native_amp
         (Demo.training_type (OtherTrainingType "SingleDevicePlugin") false
            attached ([], [], []) VNone VNone);
     AcceleratorRest.precision_plugin := precision swallow;
     AcceleratorRest.training_type_plugin := training_type;
     AcceleratorRest.module_optimizer_zero_grad :=
       fun _ _ _ _ _ => Demo.returns (VStr "zeroed") |}.

Definition step_kwargs : list (string * PyVal) :=
  [("batch", VInt 5); ("batch_idx", VInt 0)].

End DemoRest.

(** * Properties *)

(** ** Running a computation, step by step *)

Section MonadFacts.
Context {PS : Type}.
Local Open Scope acc_scope.

(** A sequence that returns went through both of its halves. *)
Lemma bind_Ok_inv {A B} (m : M PS A) (f : A -> M PS B) s b s2 evs :
  bind m f s = (Ok b, s2, evs) ->
  exists a s1 evs1 evs2,
    m s = (Ok a, s1, evs1) /\ f a s1 = (Ok b, s2, evs2) /\ evs = evs1 ++ evs2.
Proof.
  unfold bind. destruct (m s) as [[[a|e] s1] evs1]; [|discriminate].
  destruct (f a s1) as [[r s2'] evs2] eqn:Hf. intros [= -> -> <-].
  exists a, s1, evs1, evs2. auto.
Qed.

Lemma call_Ok_inv {A} (ev : Event) (h : Hook PS A) s a s' evs :
  call ev h s = (Ok a, s', evs) ->
  exists w, h (world s) = (Ok a, w) /\ s' = with_world s w /\ evs = [ev].
Proof.
  unfold call. destruct (h (world s)) as [r w]. intros [= -> <- <-]. eauto.
Qed.

Lemma call_run {A} (ev : Event) (h : Hook PS A) s r w :
  h (world s) = (r, w) -> call ev h s = (r, with_world s w, [ev]).
Proof. intros Hh. unfold call. rewrite Hh. reflexivity. Qed.

Lemma call_events {A} (ev : Event) (h : Hook PS A) s :
  events_of (call ev h) s = [ev].
Proof. unfold events_of, call. destruct (h (world s)). reflexivity. Qed.

End MonadFacts.

(** ** The guard of [setup_optimizers] *)

Section SetupOptimizers.
Context {PS : Type}.
Variable self : Accelerator.t PS.
Variable trainer : Trainer.t.

Let plugin := Accelerator.training_type_plugin self.

(** Outside fitting and tuning the method returns at once. *)
Lemma setup_optimizers_skips s :
  Trainer.fn (Trainer.state trainer) ∉ [Some FITTING; Some TUNING] ->
  Accelerator.setup_optimizers self trainer s
  = (Ok tt, s, [Acc_setup_optimizers trainer]).
Proof.
  intros Hfn. unfold Accelerator.setup_optimizers, bind, emit.
  rewrite bool_decide_eq_true_2 by exact Hfn. reflexivity.
Qed.

(** While fitting or tuning it asks the plugin and stores what it gets, or
    lets the plugin's exception through without touching the lists. *)
Lemma setup_optimizers_builds s r w :
  Trainer.fn (Trainer.state trainer) ∈ [Some FITTING; Some TUNING] ->
  TrainingTypePlugin.init_optimizers plugin trainer
    (TrainingTypePlugin.lightning_module plugin (world s)) (world s) = (r, w) ->
  Accelerator.setup_optimizers self trainer s
  = (match r with Ok _ => Ok tt | Raise e => Raise e end,
     match r with
     | Ok (opts, scheds, freqs) =>
         {| optimizers := opts; lr_schedulers := scheds;
            optimizer_frequencies := freqs; world := w |}
     | Raise _ => with_world s w
     end,
     [Acc_setup_optimizers trainer;
      TT_init_optimizers trainer
        (LightningModule.ref
           <$> TrainingTypePlugin.lightning_module plugin (world s))]).
Proof.
  intros Hfn Hinit.
  unfold Accelerator.setup_optimizers, bind, emit.
  rewrite bool_decide_eq_false_2 by (intros Hn; exact (Hn Hfn)).
  unfold Accelerator.lightning_module, gets, call. fold plugin.
  rewrite Hinit. destruct r as [[[opts scheds] freqs]|e]; reflexivity.
Qed.

End SetupOptimizers.

(** C3: when the run mode is neither fitting nor tuning, [setup_optimizers]
    leaves the three lists (and the whole state) as they are and makes no
    call to [init_optimizers]; otherwise it calls [init_optimizers] once and
    stores the three lists that call returned. *)
Theorem setup_optimizers_guard (PS : Type) (self : Accelerator.t PS)
    (trainer : Trainer.t) (s : State PS) :
  let plugin := Accelerator.training_type_plugin self in
  let lm := TrainingTypePlugin.lightning_module plugin (world s) in
  (Trainer.fn (Trainer.state trainer) ∉ [Some FITTING; Some TUNING] ->
   Accelerator.setup_optimizers self trainer s
   = (Ok tt, s, [Acc_setup_optimizers trainer]) /\
   count is_init_optimizers
     (events_of (Accelerator.setup_optimizers self trainer) s) = 0%nat) /\
  (Trainer.fn (Trainer.state trainer) ∈ [Some FITTING; Some TUNING] ->
   forall opts scheds freqs w,
     TrainingTypePlugin.init_optimizers plugin trainer lm (world s)
     = (Ok (opts, scheds, freqs), w) ->
     Accelerator.setup_optimizers self trainer s
     = (Ok tt,
        {| optimizers := opts; lr_schedulers := scheds;
           optimizer_frequencies := freqs; world := w |},
        [Acc_setup_optimizers trainer;
         TT_init_optimizers trainer (LightningModule.ref <$> lm)])).
Proof.
  intros plugin lm. split.
  - intros Hfn. unfold events_of.
    rewrite (setup_optimizers_skips self trainer s Hfn). split; reflexivity.
  - intros Hfn opts scheds freqs w Hinit.
    rewrite (setup_optimizers_builds self trainer s _ _ Hfn Hinit). reflexivity.
Qed.

(** The guard at work: a prediction run builds nothing, a fitting run stores
    the plugin's three lists. *)
Lemma setup_optimizers_guard_witness :
  let self := Accelerator.mk Demo.native_amp (Demo.single_device false) in
  let s := Accelerator.init Demo.world0 in
  Accelerator.setup_optimizers self Demo.predict s
  = (Ok tt, s, [Acc_setup_optimizers Demo.predict]) /\
  Accelerator.setup_optimizers self Demo.fit s
  = (Ok tt,
     {| optimizers := [1%nat; 2%nat]; lr_schedulers := [VStr "step_lr"];
        optimizer_frequencies := [1; 1]; world := Demo.world0 |},
     [Acc_setup_optimizers Demo.fit; TT_init_optimizers Demo.fit (Some 7%nat)]).
Proof.
  intros self s.
  destruct (setup_optimizers_guard nat self Demo.predict s) as [Hskip _].
  destruct (setup_optimizers_guard nat self Demo.fit s) as [_ Hbuild].
  split.
  - apply Hskip. vm_compute. intros H.
    repeat (apply elem_of_cons in H; destruct H as [H|H]; [discriminate|]).
    apply elem_of_nil in H. exact H.
  - apply (Hbuild ltac:(apply list_elem_of_here)
             [1%nat; 2%nat] [VStr "step_lr"] [1; 1] Demo.world0).
    reflexivity.
Defined.

(** ** Moving a batch *)

(** The body of [batch_to_device], by cases on the attached module and on
    the class of the plugin. *)
Lemma batch_to_device_cases {PS : Type} (self : Accelerator.t PS)
    (batch : PyVal) (device : option Device) (dataloader_idx : Z)
    (s : State PS) :
  let plugin := Accelerator.training_type_plugin self in
  let target := default (TrainingTypePlugin.root_device plugin (world s)) device in
  Accelerator.batch_to_device self batch device dataloader_idx s
  = match TrainingTypePlugin.lightning_module plugin (world s),
          TrainingTypePlugin.variant plugin with
    | Some m, OtherTrainingType _ =>
        call (LM_apply_batch_transfer_handler (LightningModule.ref m)
                batch target dataloader_idx)
          (LightningModule._apply_batch_transfer_handler m
             batch target dataloader_idx) s
    | _, _ => (Ok (move_data_to_device batch target), s, [])
    end.
Proof.
  intros plugin target.
  unfold Accelerator.batch_to_device, bind, Accelerator.lightning_module,
    Accelerator.root_device, gets,
    TrainingTypePlugin.isinstance_DataParallelPlugin.
  fold plugin. fold target.
  destruct (TrainingTypePlugin.lightning_module plugin (world s)) as [m|],
    (TrainingTypePlugin.variant plugin) as [|name]; try reflexivity.
  destruct (call _ _ s) as [[r s'] evs]. reflexivity.
Qed.

(** C4: with a data-parallel plugin [batch_to_device] never calls the
    model's batch-transfer hook; with another plugin and a lightning module
    attached it calls that hook, once, with the given device or else the
    root device; with no lightning module attached it returns the generic
    recursive move of the batch. *)
Theorem batch_to_device_dispatch (PS : Type) (self : Accelerator.t PS)
    (batch : PyVal) (device : option Device) (dataloader_idx : Z)
    (s : State PS) :
  let plugin := Accelerator.training_type_plugin self in
  let target := default (TrainingTypePlugin.root_device plugin (world s)) device in
  let run := Accelerator.batch_to_device self batch device dataloader_idx s in
  (TrainingTypePlugin.variant plugin = DataParallel ->
   run = (Ok (move_data_to_device batch target), s, []) /\
   count is_batch_transfer (snd run) = 0%nat) /\
  (forall m,
     TrainingTypePlugin.variant plugin <> DataParallel ->
     TrainingTypePlugin.lightning_module plugin (world s) = Some m ->
     run = call (LM_apply_batch_transfer_handler (LightningModule.ref m)
                   batch target dataloader_idx)
             (LightningModule._apply_batch_transfer_handler m
                batch target dataloader_idx) s /\
     snd run = [LM_apply_batch_transfer_handler (LightningModule.ref m)
                  batch target dataloader_idx]) /\
  (TrainingTypePlugin.lightning_module plugin (world s) = None ->
   run = (Ok (move_data_to_device batch target), s, [])).
Proof.
  intros plugin target run. subst run.
  rewrite batch_to_device_cases. fold plugin. fold target.
  split; [|split].
  - intros ->.
    destruct (TrainingTypePlugin.lightning_module plugin (world s));
      split; reflexivity.
  - intros m Hvariant ->.
    destruct (TrainingTypePlugin.variant plugin); [congruence|].
    split; [reflexivity|]. apply call_events.
  - intros ->. reflexivity.
Qed.

(** The three branches on concrete plugins: a data-parallel plugin with a
    module attached moves the batch itself, a single-device plugin hands it
    to the module's hook with the root device, and a plugin with no module
    moves it itself. *)
Lemma batch_to_device_dispatch_witness :
  let batch := VList [VTensor Demo.loss; VInt 2] in
  let moved := VList [VTensor {| payload := [3]; device := cuda 0 |}; VInt 2] in
  let s := Accelerator.init Demo.world0 in
  Accelerator.batch_to_device
    (Accelerator.mk Demo.native_amp Demo.data_parallel) batch None 0 s
  = (Ok moved, s, []) /\
  Accelerator.batch_to_device
    (Accelerator.mk Demo.native_amp (Demo.single_device false)) batch None 0 s
  = (Ok (VTuple [VStr "custom"; moved]), s,
     [LM_apply_batch_transfer_handler 7%nat batch (cuda 0) 0]) /\
  Accelerator.batch_to_device
    (Accelerator.mk Demo.native_amp
       (Demo.training_type (OtherTrainingType "SingleDevicePlugin") false None
          ([], [], []) VNone VNone)) batch None 0 s
  = (Ok moved, s, []).
Proof.
  intros batch moved s. split; [|split].
  - destruct (batch_to_device_dispatch nat
                (Accelerator.mk Demo.native_amp Demo.data_parallel)
                batch None 0 s) as (Hdp & _ & _).
    destruct Hdp as [Hrun _]; [reflexivity|]. rewrite Hrun. reflexivity.
  - destruct (batch_to_device_dispatch nat
                (Accelerator.mk Demo.native_amp (Demo.single_device false))
                batch None 0 s) as (_ & Hhook & _).
    destruct (Hhook Demo.module) as [Hrun _]; [discriminate|reflexivity|].
    rewrite Hrun. reflexivity.
  - destruct (batch_to_device_dispatch nat
                (Accelerator.mk Demo.native_amp
                   (Demo.training_type (OtherTrainingType "SingleDevicePlugin")
                      false None ([], [], []) VNone VNone))
                batch None 0 s) as (_ & _ & Hnone).
    rewrite Hnone; reflexivity.
Defined.

(** ** The mixed-precision backend *)

(** C9: [amp_backend] is [APEX] for a precision plugin of the Apex variant,
    [NATIVE] for one of the native-AMP variant, and [None] for any other. *)
Theorem amp_backend_classifies (PS : Type) (self : Accelerator.t PS) :
  Accelerator.amp_backend self
  = match PrecisionPlugin.variant (Accelerator.precision_plugin self) with
    | ApexMixedPrecision => Some APEX
    | NativeMixedPrecision => Some NATIVE
    | OtherPrecision _ => None
    end.
Proof.
  unfold Accelerator.amp_backend,
    PrecisionPlugin.isinstance_ApexMixedPrecisionPlugin,
    PrecisionPlugin.isinstance_NativeMixedPrecisionPlugin.
  destruct (PrecisionPlugin.variant (Accelerator.precision_plugin self));
    reflexivity.
Qed.

(** ** The state of an optimizer *)

(** C10: [optimizer_state] returns what the training-type plugin's own
    [optimizer_state] returns when the plugin has one, and the optimizer's
    [state_dict()] otherwise; for a plugin without the method and the
    optimizer whose state is [{"a": 1}] the result is [{"a": 1}]. *)
Theorem optimizer_state_override_or_default (PS : Type)
    (self : Accelerator.t PS) (optimizer : OptRef) (s : State PS) :
  let plugin := Accelerator.training_type_plugin self in
  (forall override r w,
     TrainingTypePlugin.optimizer_state plugin = Some override ->
     override optimizer (world s) = (r, w) ->
     Accelerator.optimizer_state self optimizer s
     = (r, with_world s w, [TT_optimizer_state optimizer])) /\
  (TrainingTypePlugin.optimizer_state plugin = None ->
   Accelerator.optimizer_state self optimizer s
   = (Ok (Optimizer.state_dict (store (world s) optimizer)), s, [])) /\
  (TrainingTypePlugin.optimizer_state plugin = None ->
   store (world s) optimizer = Demo.optimizer_a ->
   Accelerator.optimizer_state self optimizer s
   = (Ok (VDict [("a", VInt 1)]), s, [])).
Proof.
  intros plugin. unfold Accelerator.optimizer_state. fold plugin.
  repeat split.
  - intros override r w -> Hrun. apply call_run. exact Hrun.
  - intros ->. reflexivity.
  - intros -> Hopt. unfold gets. rewrite Hopt. reflexivity.
Qed.

(** The example of the spec, and a plugin that has the method. *)
Lemma optimizer_state_override_or_default_witness :
  let s := Accelerator.init Demo.world0 in
  let plain := Demo.single_device false in
  let collating :=
    {| TrainingTypePlugin.variant := TrainingTypePlugin.variant plain;
       TrainingTypePlugin.setup_optimizers_in_pre_dispatch := false;
       TrainingTypePlugin.setup_environment := Demo.returns tt;
       TrainingTypePlugin.setup := Demo.returns tt;
       TrainingTypePlugin.pre_dispatch := Demo.returns tt;
       TrainingTypePlugin.dispatch := fun _ => Demo.returns tt;
       TrainingTypePlugin.post_dispatch := fun _ => Demo.returns tt;
       TrainingTypePlugin.teardown := Demo.returns tt;
       TrainingTypePlugin.model := TrainingTypePlugin.model plain;
       TrainingTypePlugin.set_model := TrainingTypePlugin.set_model plain;
       TrainingTypePlugin.lightning_module :=
         TrainingTypePlugin.lightning_module plain;
       TrainingTypePlugin.root_device := TrainingTypePlugin.root_device plain;
       TrainingTypePlugin.init_optimizers :=
         TrainingTypePlugin.init_optimizers plain;
       TrainingTypePlugin.pre_backward := TrainingTypePlugin.pre_backward plain;
       TrainingTypePlugin.post_backward :=
         TrainingTypePlugin.post_backward plain;
       TrainingTypePlugin.optimizer_state :=
         Some (fun _ => Demo.returns (VStr "collated")) |} in
  Accelerator.optimizer_state (Accelerator.mk Demo.native_amp plain) 5%nat s
  = (Ok (VDict [("a", VInt 1)]), s, []) /\
  Accelerator.optimizer_state (Accelerator.mk Demo.native_amp collating) 5%nat s
  = (Ok (VStr "collated"), s, [TT_optimizer_state 5%nat]).
Proof.
  intros s plain collating. split.
  - apply (optimizer_state_override_or_default nat
             (Accelerator.mk Demo.native_amp plain) 5%nat s); reflexivity.
  - destruct (optimizer_state_override_or_default nat
                (Accelerator.mk Demo.native_amp collating) 5%nat s)
      as [Hover _].
    apply (Hover (fun _ => Demo.returns (VStr "collated"))); reflexivity.
Defined.

(** ** The two unimplemented queries *)

(** C6: on the base accelerator [get_device_stats] raises
    [NotImplementedError] for every device, leaving the state as it was;
    [auto_device_count] does not raise: it returns [None]. *)
Theorem unimplemented_queries (PS : Type) (device : string + Device)
    (s : State PS) :
  Accelerator.get_device_stats device s = (Raise NotImplementedError, s, []) /\
  Accelerator.auto_device_count s = (Ok VNone, s, []).
Proof. split; reflexivity. Qed.

(** ** The backward pipeline *)

(** Runs the next hook of a pipeline, in both of its outcomes. *)
Tactic Notation "next_hook" "as" ident(r) ident(w) :=
  match goal with
  | |- context [let (_, _) := ?h in _] =>
      let e := fresh "e" in
      let H := fresh "H" r in
      destruct h as [[r|e] w] eqn:H; simpl
  end.

(** C2: [backward] calls five hooks in the order training-type
    [pre_backward], precision [pre_backward], precision [backward],
    precision [post_backward], training-type [post_backward], and a run
    stopped by an exception went through a prefix of that order.  When it
    returns, the trace is exactly these five calls, precision [backward]
    and precision [post_backward] were given the loss that precision
    [pre_backward] returned, and the value returned is the one precision
    [post_backward] returned; and it returns whenever the five hooks do. *)
Theorem backward_pipeline (PS : Type) (self : Accelerator.t PS)
    (closure_loss : Tensor) (args : list PyVal)
    (kwargs : list (string * PyVal)) (s : State PS) :
  let ttp := Accelerator.training_type_plugin self in
  let pp := Accelerator.precision_plugin self in
  let lm := TrainingTypePlugin.lightning_module ttp in
  let run := Accelerator.backward self closure_loss args kwargs s in
  let chain v1 w1 scaled w2 w3 result w4 v5 w5 :=
    TrainingTypePlugin.pre_backward ttp closure_loss (world s) = (Ok v1, w1) /\
    PrecisionPlugin.pre_backward pp (lm w1) closure_loss w1 = (Ok scaled, w2) /\
    PrecisionPlugin.backward pp (lm w2) scaled args kwargs w2 = (Ok tt, w3) /\
    PrecisionPlugin.post_backward pp (lm w3) scaled w3 = (Ok result, w4) /\
    TrainingTypePlugin.post_backward ttp result w4 = (Ok v5, w5) in
  (exists n, List.map backward_hook (snd run) = take n backward_order) /\
  (forall result s',
     fst run = (Ok result, s') ->
     exists v1 w1 scaled w2 w3 w4 v5 w5,
       chain v1 w1 scaled w2 w3 result w4 v5 w5 /\
       s' = with_world s w5 /\
       snd run = [TT_pre_backward closure_loss;
                  PP_pre_backward (LightningModule.ref <$> lm w1) closure_loss;
                  PP_backward (LightningModule.ref <$> lm w2) scaled args kwargs;
                  PP_post_backward (LightningModule.ref <$> lm w3) scaled;
                  TT_post_backward result]) /\
  (forall v1 w1 scaled w2 w3 result w4 v5 w5,
     chain v1 w1 scaled w2 w3 result w4 v5 w5 ->
     fst run = (Ok result, with_world s w5)).
Proof.
  intros ttp pp lm run chain. subst run chain lm.
  unfold Accelerator.backward, bind, call, Accelerator.lightning_module, gets.
  fold ttp pp. simpl.
  split; [|split].
  - next_hook as v1 w1; [|exists 1%nat; reflexivity].
    next_hook as scaled w2; [|exists 2%nat; reflexivity].
    next_hook as u w3; [|exists 3%nat; reflexivity].
    next_hook as result w4; [|exists 4%nat; reflexivity].
    next_hook as v5 w5; exists 5%nat; reflexivity.
  - intros result' s'.
    next_hook as v1 w1; [|discriminate].
    next_hook as scaled w2; [|discriminate].
    next_hook as u w3; [|discriminate].
    next_hook as result w4; [|discriminate].
    next_hook as v5 w5; [|discriminate].
    intros [= <- <-]. destruct u.
    exists v1, w1, scaled, w2, w3, w4, v5, w5. auto 10.
  - intros v1 w1 scaled w2 w3 result w4 v5 w5 (H1 & H2 & H3 & H4 & H5).
    rewrite H1. simpl. rewrite H2. simpl. rewrite H3. simpl.
    rewrite H4. simpl. rewrite H5. reflexivity.
Qed.

(** The pipeline on the concrete plugins: the loss [3] is scaled to [6] by
    the precision plugin and comes back as [6]. *)
Lemma backward_pipeline_witness :
  let self := Accelerator.mk Demo.native_amp (Demo.single_device false) in
  let s := Accelerator.init Demo.world0 in
  fst (Accelerator.backward self Demo.loss [] [] s)
  = (Ok (Demo.scale Demo.loss), s) /\
  snd (Accelerator.backward self Demo.loss [] [] s)
  = [TT_pre_backward Demo.loss;
     PP_pre_backward (Some 7%nat) Demo.loss;
     PP_backward (Some 7%nat) (Demo.scale Demo.loss) [] [];
     PP_post_backward (Some 7%nat) (Demo.scale Demo.loss);
     TT_post_backward (Demo.scale Demo.loss)].
Proof.
  intros self s.
  destruct (backward_pipeline nat self Demo.loss [] [] s)
    as (_ & Hreturned & Hreturns).
  assert (Hrun : fst (Accelerator.backward self Demo.loss [] [] s)
                 = (Ok (Demo.scale Demo.loss), s)).
  { apply (Hreturns VNone Demo.world0 (Demo.scale Demo.loss) Demo.world0
             Demo.world0 (Demo.scale Demo.loss) Demo.world0 VNone Demo.world0).
    repeat split. }
  split; [exact Hrun|].
  destruct (Hreturned _ _ Hrun)
    as (v1 & w1 & scaled & w2 & w3 & w4 & v5 & w5 & Hchain & _ & Hevs).
  destruct Hchain as (H1 & H2 & _).
  injection H1 as _ <-. injection H2 as <- <-.
  exact Hevs.
Defined.

(** ** What the training-type hooks return is not used *)

(** C7: for two training-type plugins that differ only in the values their
    [pre_backward] and [post_backward] hooks return, and the same precision
    plugin, [backward] gives the same outcome, the same final state and the
    same trace from every state; in particular precision [pre_backward] is
    given the identical loss, the [closure_loss] that [backward] was called
    with, and the value returned is identical. *)
Theorem backward_ignores_training_type_returns (PS : Type)
    (self1 self2 : Accelerator.t PS) (closure_loss : Tensor)
    (args : list PyVal) (kwargs : list (string * PyVal)) (s : State PS) :
  Accelerator.precision_plugin self1 = Accelerator.precision_plugin self2 ->
  differ_in_backward_returns (Accelerator.training_type_plugin self1)
    (Accelerator.training_type_plugin self2) ->
  Accelerator.backward self1 closure_loss args kwargs s
  = Accelerator.backward self2 closure_loss args kwargs s /\
  (forall m loss,
     PP_pre_backward m loss
       ∈ snd (Accelerator.backward self1 closure_loss args kwargs s) ->
     loss = closure_loss).
Proof.
  intros Hpp (Hlm & Hpre & Hpost).
  unfold Accelerator.backward, bind, call, Accelerator.lightning_module, gets.
  rewrite <- Hpp. simpl.
  generalize (Hpre closure_loss (world s)). unfold same_effect.
  destruct (TrainingTypePlugin.pre_backward
              (Accelerator.training_type_plugin self1) closure_loss (world s))
    as [[v1|e1] w1];
  destruct (TrainingTypePlugin.pre_backward
              (Accelerator.training_type_plugin self2) closure_loss (world s))
    as [[v1'|e1'] w1']; simpl; intros [Hw Hk]; try contradiction; subst; try clear Hk.
  2:{ split; [reflexivity|]. intros m loss Hin.
      apply list_elem_of_singleton in Hin. discriminate. }
  rewrite <- (Hlm w1').
  next_hook as scaled w2.
  2:{ split; [reflexivity|]. intros m loss Hin.
      repeat (apply elem_of_cons in Hin; destruct Hin as [Hin|Hin];
              [congruence|]).
      apply elem_of_nil in Hin. contradiction. }
  rewrite <- (Hlm w2).
  next_hook as u w3.
  2:{ split; [reflexivity|]. intros m loss Hin.
      repeat (apply elem_of_cons in Hin; destruct Hin as [Hin|Hin];
              [congruence|]).
      apply elem_of_nil in Hin. contradiction. }
  rewrite <- (Hlm w3).
  next_hook as result w4.
  2:{ split; [reflexivity|]. intros m loss Hin.
      repeat (apply elem_of_cons in Hin; destruct Hin as [Hin|Hin];
              [congruence|]).
      apply elem_of_nil in Hin. contradiction. }
  generalize (Hpost result w4). unfold same_effect.
  destruct (TrainingTypePlugin.post_backward
              (Accelerator.training_type_plugin self1) result w4)
    as [[v5|e5] w5];
  destruct (TrainingTypePlugin.post_backward
              (Accelerator.training_type_plugin self2) result w4)
    as [[v5'|e5'] w5']; simpl; intros [Hw Hk]; try contradiction; subst; try clear Hk.
  all: split; [reflexivity|]; intros m loss Hin;
    repeat (apply elem_of_cons in Hin; destruct Hin as [Hin|Hin];
            [congruence|]);
    apply elem_of_nil in Hin; contradiction.
Qed.

(** Two plugins whose backward hooks return different values: the runs of
    [backward] coincide. *)
Lemma backward_ignores_training_type_returns_witness :
  let quiet :=
    Demo.training_type (OtherTrainingType "SingleDevicePlugin") false
      (Some Demo.module) ([], [], []) VNone VNone in
  let chatty :=
    Demo.training_type (OtherTrainingType "SingleDevicePlugin") false
      (Some Demo.module) ([], [], []) (VInt 1) (VStr "changed") in
  let s := Accelerator.init Demo.world0 in
  differ_in_backward_returns quiet chatty /\
  Accelerator.backward (Accelerator.mk Demo.native_amp quiet) Demo.loss [] [] s
  = Accelerator.backward (Accelerator.mk Demo.native_amp chatty)
      Demo.loss [] [] s.
Proof.
  intros quiet chatty s.
  assert (Hdiffer : differ_in_backward_returns quiet chatty).
  { split; [|split]; intros; [reflexivity|split; exact I || reflexivity ..]. }
  split; [exact Hdiffer|].
  destruct (backward_ignores_training_type_returns nat
              (Accelerator.mk Demo.native_amp quiet)
              (Accelerator.mk Demo.native_amp chatty)
              Demo.loss [] [] s eq_refl Hdiffer) as [Hsame _].
  exact Hsame.
Defined.

(** ** Counting calls, compositionally *)

Section Counting.
Context {PS : Type}.
Variable test : Event -> bool.
Local Open Scope acc_scope.
Local Open Scope nat_scope.

Lemma count_app (evs1 evs2 : list Event) :
  count test (evs1 ++ evs2) = count test evs1 + count test evs2.
Proof. unfold count. rewrite List.filter_app, length_app. reflexivity. Qed.

Lemma at_most_weaken {A} (m : M PS A) n n' :
  n <= n' -> emits_at_most test n m -> emits_at_most test n' m.
Proof. intros Hle Hm s. specialize (Hm s). lia. Qed.

Lemma at_most_bind {A B} (m : M PS A) (f : A -> M PS B) n1 n2 :
  emits_at_most test n1 m ->
  (forall a, emits_at_most test n2 (f a)) ->
  emits_at_most test (n1 + n2) (bind m f).
Proof.
  intros Hm Hf s. specialize (Hm s). unfold events_of, bind in *.
  destruct (m s) as [[[a|e] s1] evs1]; simpl in *; [|lia].
  specialize (Hf a s1). unfold events_of in Hf.
  destruct (f a s1) as [[r s2] evs2]; simpl in *.
  rewrite count_app. lia.
Qed.

Lemma exactly_bind {A B} (m : M PS A) (f : A -> M PS B) n1 n2 :
  emits_exactly test n1 m ->
  (forall a, emits_exactly test n2 (f a)) ->
  emits_exactly test (n1 + n2) (bind m f).
Proof.
  intros Hm Hf s b s2 evs Hrun.
  apply bind_Ok_inv in Hrun.
  destruct Hrun as (a & s1 & evs1 & evs2 & Hfst & Hsnd & ->).
  rewrite count_app, (Hm _ _ _ _ Hfst), (Hf _ _ _ _ _ Hsnd). reflexivity.
Qed.

Lemma at_most_call {A} (ev : Event) (h : Hook PS A) :
  test ev = false -> emits_at_most test 0 (call ev h).
Proof.
  intros Hev s. rewrite call_events. unfold count. simpl. rewrite Hev.
  reflexivity.
Qed.

Lemma exactly_call {A} (ev : Event) (h : Hook PS A) :
  emits_exactly test (if test ev then 1 else 0) (call ev h).
Proof.
  intros s a s' evs Hrun. apply call_Ok_inv in Hrun.
  destruct Hrun as (w & _ & _ & ->). unfold count. simpl.
  destruct (test ev); reflexivity.
Qed.

Lemma exactly_call_none {A} (ev : Event) (h : Hook PS A) :
  test ev = false -> emits_exactly test 0 (call ev h).
Proof. intros Hev. generalize (exactly_call ev h). rewrite Hev. auto. Qed.

Lemma exactly_call_one {A} (ev : Event) (h : Hook PS A) :
  test ev = true -> emits_exactly test 1 (call ev h).
Proof. intros Hev. generalize (exactly_call ev h). rewrite Hev. auto. Qed.

Lemma at_most_call_one {A} (ev : Event) (h : Hook PS A) :
  emits_at_most test 1 (call ev h).
Proof.
  intros s. rewrite call_events. unfold count. simpl.
  destruct (test ev); simpl; lia.
Qed.

Lemma at_most_emit (ev : Event) :
  emits_at_most test (if test ev then 1 else 0) (emit ev : M PS unit).
Proof. intros s. unfold events_of, emit, count. simpl. destruct (test ev); reflexivity. Qed.

Lemma exactly_emit (ev : Event) :
  emits_exactly test (if test ev then 1 else 0) (emit ev : M PS unit).
Proof.
  intros s a s' evs [= _ _ <-]. unfold count. simpl.
  destruct (test ev); reflexivity.
Qed.

Lemma at_most_ret {A} (a : A) : emits_at_most test 0 (ret a : M PS A).
Proof. intros s. reflexivity. Qed.

Lemma exactly_ret {A} (a : A) : emits_exactly test 0 (ret a : M PS A).
Proof. intros s b s' evs [= _ _ <-]. reflexivity. Qed.

Lemma at_most_gets {A} (f : State PS -> A) : emits_at_most test 0 (gets f).
Proof. intros s. reflexivity. Qed.

Lemma exactly_gets {A} (f : State PS -> A) : emits_exactly test 0 (gets f).
Proof. intros s b s' evs [= _ _ <-]. reflexivity. Qed.

Lemma at_most_modify (f : State PS -> State PS) :
  emits_at_most test 0 (modify f).
Proof. intros s. reflexivity. Qed.

Lemma exactly_modify (f : State PS -> State PS) :
  emits_exactly test 0 (modify f).
Proof. intros s b s' evs [= _ _ <-]. reflexivity. Qed.

(** A loop of silent, returning bodies is silent and returns. *)
Lemma for_each_silent {A} (l : list A) (body : A -> M PS unit) :
  (forall x s, exists s', body x s = (Ok tt, s', [])) ->
  forall s, exists s', Accelerator.for_each l body s = (Ok tt, s', []).
Proof.
  intros Hbody. induction l as [|x l IH]; intros s; simpl.
  - exists s. reflexivity.
  - destruct (Hbody x s) as [s1 H1]. destruct (IH s1) as [s2 H2].
    exists s2. unfold bind. rewrite H1, H2. reflexivity.
Qed.

(** Moving the optimizer state calls no collaborator and cannot fail. *)
Lemma move_optimizer_state_silent (self : Accelerator.t PS) device s :
  exists s', Accelerator._move_optimizer_state self device s = (Ok tt, s', []).
Proof.
  unfold Accelerator._move_optimizer_state, bind, Accelerator.root_device, gets.
  simpl.
  match goal with
  | |- context [Accelerator.for_each ?l ?body s] =>
      destruct (for_each_silent l body) with (s := s) as [s' Hrun]
  end.
  - intros opt s0.
    match goal with
    | |- context [Accelerator.for_each ?l ?body] =>
        destruct (for_each_silent l body) with (s := s0) as [s' Hrun]
    end.
    + intros pv s1. eexists. reflexivity.
    + exists s'. rewrite Hrun. reflexivity.
  - exists s'. rewrite Hrun. reflexivity.
Qed.

Lemma at_most_move_optimizer_state (self : Accelerator.t PS) device :
  emits_at_most test 0 (Accelerator._move_optimizer_state self device).
Proof.
  intros s. unfold events_of.
  destruct (move_optimizer_state_silent self device s) as [s' ->]. reflexivity.
Qed.

Lemma exactly_move_optimizer_state (self : Accelerator.t PS) device :
  emits_exactly test 0 (Accelerator._move_optimizer_state self device).
Proof.
  intros s a s1 evs Hrun.
  destruct (move_optimizer_state_silent self device s) as [s' Hsilent].
  rewrite Hsilent in Hrun. injection Hrun as _ _ <-. reflexivity.
Qed.

End Counting.

Lemma exactly_eq {PS A} (test : Event -> bool) (m : M PS A) n n' :
  n = n' -> emits_exactly test n m -> emits_exactly test n' m.
Proof. intros <-. auto. Qed.

(** Bounds the selected events of a computation built from the primitives
    of the monad. *)
Ltac at_most_steps :=
  repeat first
    [ apply at_most_ret | apply at_most_gets | apply at_most_modify
    | apply at_most_call; reflexivity
    | apply at_most_call_one | apply at_most_emit
    | apply at_most_move_optimizer_state
    | match goal with
      | |- emits_at_most _ _ (match ?x with _ => _ end) => destruct x
      end
    | eapply at_most_bind; [|intros ?] ].

Ltac at_most :=
  eapply at_most_weaken; [|at_most_steps]; [simpl; lia].

(** Counts the selected events of a computation that returns. *)
Ltac exactly_steps :=
  repeat first
    [ apply exactly_ret | apply exactly_gets | apply exactly_modify
    | apply exactly_call_none; reflexivity
    | apply exactly_call_one; reflexivity
    | apply exactly_emit
    | apply exactly_move_optimizer_state
    | match goal with
      | |- emits_exactly _ _ (match ?x with _ => _ end) => destruct x
      end
    | eapply exactly_bind; [|intros ?] ].

Ltac exactly :=
  eapply exactly_eq; [|exactly_steps]; [reflexivity].

(** The methods of the lifecycle, down to the primitives of the monad. *)
Ltac unfold_lifecycle :=
  unfold full_run, Accelerator.setup_environment, Accelerator.setup,
    Accelerator.pre_dispatch, Accelerator.dispatch, Accelerator.post_dispatch,
    Accelerator.teardown, Accelerator.setup_training_type_plugin,
    Accelerator.setup_precision_plugin, Accelerator.setup_optimizers,
    Accelerator.model, Accelerator.set_model, Accelerator.lightning_module,
    Accelerator.root_device, Accelerator.set_optimizers,
    Accelerator.set_lr_schedulers, Accelerator.set_optimizer_frequencies.

(** Splits a lifecycle method on the capability flag of the plugin and on
    the guard of [setup_optimizers]. *)
Ltac lifecycle_cases :=
  unfold_lifecycle;
  destruct (TrainingTypePlugin.setup_optimizers_in_pre_dispatch _);
  try destruct (bool_decide (_ ∉ _));
  cbv beta iota delta [negb].

(** ** Optimizers are set up once *)

Section Once.
Context {PS : Type}.
Variable self : Accelerator.t PS.
Variable trainer : Trainer.t.
Local Open Scope nat_scope.

#[local] Abbreviation deferred :=
  (TrainingTypePlugin.setup_optimizers_in_pre_dispatch
     (Accelerator.training_type_plugin self)).

#[local] Abbreviation fitting_or_tuning :=
  (bool_decide (Trainer.fn (Trainer.state trainer)
                  ∈ [Some FITTING; Some TUNING])).

Lemma setup_at_most :
  emits_at_most is_setup_optimizers (if deferred then 0 else 1)
    (Accelerator.setup self trainer).
Proof.
  lifecycle_cases; at_most.
Qed.

Lemma setup_exactly :
  emits_exactly is_setup_optimizers (if deferred then 0 else 1)
    (Accelerator.setup self trainer).
Proof.
  lifecycle_cases; exactly.
Qed.

Lemma setup_calls_plugin_setup_once :
  emits_exactly is_TT_setup 1 (Accelerator.setup self trainer).
Proof.
  lifecycle_cases; exactly.
Qed.

Lemma setup_calls_connect_once :
  emits_exactly is_PP_connect 1 (Accelerator.setup self trainer).
Proof.
  lifecycle_cases; exactly.
Qed.

(** Whatever happens next, [setup] starts with the plugin's [setup]. *)
Lemma setup_starts_with_plugin_setup s :
  exists rest, events_of (Accelerator.setup self trainer) s = TT_setup :: rest.
Proof.
  unfold events_of, Accelerator.setup, bind,
    Accelerator.setup_training_type_plugin, call.
  destruct (TrainingTypePlugin.setup _ _) as [[u|e] w]; simpl.
  - match goal with
    | |- context [let (_, _) := ?rest in _] =>
        destruct rest as [[r s2] evs2]
    end.
    simpl. eauto.
  - eauto.
Qed.

Lemma setup_connect_after_plugin_setup s :
  precedes is_TT_setup is_PP_connect
    (events_of (Accelerator.setup self trainer) s).
Proof.
  destruct (setup_starts_with_plugin_setup s) as [rest ->].
  intros [|ev0 pre] ev post Hsplit Hlater.
  - injection Hsplit as <- _. discriminate.
  - injection Hsplit as <- _. exists TT_setup. split; [|reflexivity].
    apply list_elem_of_here.
Qed.

Lemma pre_dispatch_at_most :
  emits_at_most is_setup_optimizers (if deferred then 1 else 0)
    (Accelerator.pre_dispatch self trainer).
Proof.
  lifecycle_cases; at_most.
Qed.

Lemma pre_dispatch_exactly :
  emits_exactly is_setup_optimizers (if deferred then 1 else 0)
    (Accelerator.pre_dispatch self trainer).
Proof.
  lifecycle_cases; exactly.
Qed.

Lemma full_run_at_most :
  emits_at_most is_setup_optimizers 1 (full_run self trainer).
Proof.
  lifecycle_cases; at_most.
Qed.

Lemma full_run_exactly :
  emits_exactly is_setup_optimizers 1 (full_run self trainer).
Proof.
  lifecycle_cases; exactly.
Qed.

Lemma full_run_builds_at_most_once :
  emits_at_most is_init_optimizers 1 (full_run self trainer).
Proof.
  lifecycle_cases; at_most.
Qed.

Lemma full_run_builds_exactly :
  emits_exactly is_init_optimizers (if fitting_or_tuning then 1 else 0)
    (full_run self trainer).
Proof.
  unfold_lifecycle.
  destruct (TrainingTypePlugin.setup_optimizers_in_pre_dispatch _);
    destruct (decide (Trainer.fn (Trainer.state trainer)
                        ∈ [Some FITTING; Some TUNING])) as [Hin|Hout].
  - rewrite (bool_decide_eq_true_2 _ Hin).
    rewrite bool_decide_eq_false_2 by (intros Hn; exact (Hn Hin)).
    cbv beta iota delta [negb]. exactly.
  - rewrite (bool_decide_eq_false_2 _ Hout).
    rewrite (bool_decide_eq_true_2 _ Hout). cbv beta iota delta [negb]. exactly.
  - rewrite (bool_decide_eq_true_2 _ Hin).
    rewrite bool_decide_eq_false_2 by (intros Hn; exact (Hn Hin)).
    cbv beta iota delta [negb]. exactly.
  - rewrite (bool_decide_eq_false_2 _ Hout).
    rewrite (bool_decide_eq_true_2 _ Hout). cbv beta iota delta [negb]. exactly.
Qed.

End Once.

(** C1: in a full run [setup_optimizers] is entered exactly once.  [setup]
    enters it exactly when the training-type plugin's flag
    [setup_optimizers_in_pre_dispatch] is false and [pre_dispatch] exactly
    when the flag is true, so never both; no run, complete or stopped by an
    exception, enters it more often.  Within [setup] the plugin's [setup]
    is called before the precision plugin's [connect], each once.  The
    construction proper, [init_optimizers], happens once in a full run
    that fits or tunes and not at all in any other. *)
Theorem optimizers_are_set_up_once (PS : Type) (self : Accelerator.t PS)
    (trainer : Trainer.t) :
  let deferred :=
    TrainingTypePlugin.setup_optimizers_in_pre_dispatch
      (Accelerator.training_type_plugin self) in
  let fitting_or_tuning :=
    bool_decide (Trainer.fn (Trainer.state trainer)
                   ∈ [Some FITTING; Some TUNING]) in
  (forall s,
     precedes is_TT_setup is_PP_connect
       (events_of (Accelerator.setup self trainer) s) /\
     (count is_setup_optimizers (events_of (Accelerator.setup self trainer) s)
      <= if deferred then 0 else 1)%nat /\
     (count is_setup_optimizers
        (events_of (Accelerator.pre_dispatch self trainer) s)
      <= if deferred then 1 else 0)%nat /\
     (count is_setup_optimizers (events_of (full_run self trainer) s)
      <= 1)%nat) /\
  (forall s s' evs,
     Accelerator.setup self trainer s = (Ok tt, s', evs) ->
     count is_setup_optimizers evs = (if deferred then 0 else 1)%nat /\
     count is_TT_setup evs = 1%nat /\
     count is_PP_connect evs = 1%nat) /\
  (forall s s' evs,
     Accelerator.pre_dispatch self trainer s = (Ok tt, s', evs) ->
     count is_setup_optimizers evs = (if deferred then 1 else 0)%nat) /\
  (forall s s' evs,
     full_run self trainer s = (Ok tt, s', evs) ->
     count is_setup_optimizers evs = 1%nat /\
     count is_init_optimizers evs = (if fitting_or_tuning then 1 else 0)%nat).
Proof.
  intros deferred fitting_or_tuning. split; [|split; [|split]].
  - intros s. split; [|split; [|split]].
    + apply setup_connect_after_plugin_setup.
    + apply setup_at_most.
    + apply pre_dispatch_at_most.
    + apply full_run_at_most.
  - intros s s' evs Hrun. split; [|split].
    + exact (setup_exactly self trainer _ _ _ _ Hrun).
    + exact (setup_calls_plugin_setup_once self trainer _ _ _ _ Hrun).
    + exact (setup_calls_connect_once self trainer _ _ _ _ Hrun).
  - intros s s' evs Hrun.
    exact (pre_dispatch_exactly self trainer _ _ _ _ Hrun).
  - intros s s' evs Hrun. split.
    + exact (full_run_exactly self trainer _ _ _ _ Hrun).
    + exact (full_run_builds_exactly self trainer _ _ _ _ Hrun).
Qed.

(** Full runs of an eager and of a deferring plugin: both complete, and
    each enters [setup_optimizers] once. *)
Lemma optimizers_are_set_up_once_witness :
  let s := Accelerator.init Demo.world0 in
  let eager := Accelerator.mk Demo.native_amp (Demo.single_device false) in
  let lazy := Accelerator.mk Demo.native_amp (Demo.single_device true) in
  (fst (fst (full_run eager Demo.fit s)) = Ok tt /\
   count is_setup_optimizers (events_of (full_run eager Demo.fit) s) = 1%nat) /\
  (fst (fst (full_run lazy Demo.fit s)) = Ok tt /\
   count is_setup_optimizers (events_of (full_run lazy Demo.fit) s) = 1%nat).
Proof.
  intros s eager lazy. split.
  - split; [reflexivity|].
    destruct (optimizers_are_set_up_once nat eager Demo.fit)
      as (_ & _ & _ & Hfull).
    destruct (Hfull s (snd (fst (full_run eager Demo.fit s)))
                (events_of (full_run eager Demo.fit) s)) as [Hcount _].
    + reflexivity.
    + exact Hcount.
  - split; [reflexivity|].
    destruct (optimizers_are_set_up_once nat lazy Demo.fit)
      as (_ & _ & _ & Hfull).
    destruct (Hfull s (snd (fst (full_run lazy Demo.fit s)))
                (events_of (full_run lazy Demo.fit) s)) as [Hcount _].
    + reflexivity.
    + exact Hcount.
Defined.

(** ** The lists after [setup] *)

Section Lists.
Context {PS : Type}.
Variable self : Accelerator.t PS.
Variable trainer : Trainer.t.

#[local] Abbreviation plugin := (Accelerator.training_type_plugin self).
#[local] Abbreviation precision := (Accelerator.precision_plugin self).

(** A returning [setup_optimizers] either stored nothing or stored the
    three lists of one call to [init_optimizers], all at once. *)
Lemma setup_optimizers_Ok_inv s s' evs :
  Accelerator.setup_optimizers self trainer s = (Ok tt, s', evs) ->
  s' = s \/
  exists opts scheds freqs w,
    TrainingTypePlugin.init_optimizers plugin trainer
      (TrainingTypePlugin.lightning_module plugin (world s)) (world s)
    = (Ok (opts, scheds, freqs), w) /\
    s' = {| optimizers := opts; lr_schedulers := scheds;
            optimizer_frequencies := freqs; world := w |}.
Proof.
  intros Hrun.
  destruct (decide (Trainer.fn (Trainer.state trainer)
                      ∈ [Some FITTING; Some TUNING])) as [Hin|Hout].
  - destruct (TrainingTypePlugin.init_optimizers plugin trainer
                (TrainingTypePlugin.lightning_module plugin (world s)) (world s))
      as [r w] eqn:Hinit.
    rewrite (setup_optimizers_builds self trainer s r w Hin Hinit) in Hrun.
    destruct r as [[[opts scheds] freqs]|e]; [|discriminate].
    injection Hrun as <- _. right. exists opts, scheds, freqs, w. auto.
  - rewrite (setup_optimizers_skips self trainer s Hout) in Hrun.
    injection Hrun as <- _. left. reflexivity.
Qed.

(** A returning [setup_precision_plugin] stored the model, the optimizers
    and the schedulers that [connect] returned, and nothing else. *)
Lemma setup_precision_plugin_Ok_inv s s' evs :
  Accelerator.setup_precision_plugin self s = (Ok tt, s', evs) ->
  exists m opts scheds w,
    PrecisionPlugin.connect precision
      (TrainingTypePlugin.model plugin (world s)) (optimizers s)
      (lr_schedulers s) (world s)
    = (Ok (m, opts, scheds), w) /\
    s' = {| optimizers := opts; lr_schedulers := scheds;
            optimizer_frequencies := optimizer_frequencies s;
            world := TrainingTypePlugin.set_model plugin m w |}.
Proof.
  unfold Accelerator.setup_precision_plugin, bind, Accelerator.model, gets, call.
  simpl.
  destruct (PrecisionPlugin.connect _ _ _ _ _) as [[[[m opts] scheds]|e] w];
    simpl; [|discriminate].
  intros [= <- _]. exists m, opts, scheds, w. auto.
Qed.

End Lists.

(** C5, amended: [setup_optimizers] replaces the three lists together, with
    the three lists one call to [init_optimizers] returned, or replaces
    none; [setup_precision_plugin] replaces the optimizers and the
    schedulers with the lists [connect] returned and leaves the frequencies
    as they are.  So after [setup] the optimizers are as many as the
    frequencies, whenever frequencies are used, provided that
    [init_optimizers] builds as many optimizers as frequencies, that
    [connect] hands back as many optimizers as it was given, and that the
    lists agreed before. *)
Theorem lists_after_setup (PS : Type) (self : Accelerator.t PS)
    (trainer : Trainer.t) (s s' : State PS) (evs : list Event) :
  let plugin := Accelerator.training_type_plugin self in
  let precision := Accelerator.precision_plugin self in
  Accelerator.setup self trainer s = (Ok tt, s', evs) ->
  (forall lm w opts scheds freqs w',
     TrainingTypePlugin.init_optimizers plugin trainer lm w
     = (Ok (opts, scheds, freqs), w') ->
     frequencies_consistent opts freqs) ->
  (forall m opts scheds w m' opts' scheds' w',
     PrecisionPlugin.connect precision m opts scheds w
     = (Ok (m', opts', scheds'), w') ->
     length opts' = length opts) ->
  frequencies_consistent (optimizers s) (optimizer_frequencies s) ->
  frequencies_consistent (optimizers s') (optimizer_frequencies s') /\
  (forall s1 s2 evs1,
     Accelerator.setup_optimizers self trainer s1 = (Ok tt, s2, evs1) ->
     s2 = s1 \/
     exists opts scheds freqs w,
       TrainingTypePlugin.init_optimizers plugin trainer
         (TrainingTypePlugin.lightning_module plugin (world s1)) (world s1)
       = (Ok (opts, scheds, freqs), w) /\
       optimizers s2 = opts /\ lr_schedulers s2 = scheds /\
       optimizer_frequencies s2 = freqs) /\
  (forall s1 s2 evs1,
     Accelerator.setup_precision_plugin self s1 = (Ok tt, s2, evs1) ->
     optimizer_frequencies s2 = optimizer_frequencies s1 /\
     exists m w,
       PrecisionPlugin.connect precision
         (TrainingTypePlugin.model plugin (world s1)) (optimizers s1)
         (lr_schedulers s1) (world s1)
       = (Ok (m, optimizers s2, lr_schedulers s2), w)).
Proof.
  intros plugin precision Hrun Hinit Hconnect Hbefore.
  split; [|split].
  - unfold Accelerator.setup in Hrun.
    apply bind_Ok_inv in Hrun.
    destruct Hrun as ([] & s1 & evs1 & evs2 & Hsetup & Hrest & _).
    apply call_Ok_inv in Hsetup. destruct Hsetup as (w1 & _ & -> & _).
    apply bind_Ok_inv in Hrest.
    destruct Hrest as ([] & s2 & evs3 & evs4 & Hopt & Hprec & _).
    assert (Hmid : frequencies_consistent (optimizers s2)
                     (optimizer_frequencies s2)).
    { destruct (TrainingTypePlugin.setup_optimizers_in_pre_dispatch _);
        simpl in Hopt.
      - injection Hopt as <- _. exact Hbefore.
      - apply setup_optimizers_Ok_inv in Hopt.
        destruct Hopt as [->|(opts & scheds & freqs & w & Hcall & ->)].
        + exact Hbefore.
        + simpl. exact (Hinit _ _ _ _ _ _ Hcall). }
    apply setup_precision_plugin_Ok_inv in Hprec.
    destruct Hprec as (m & opts & scheds & w & Hcall & ->). simpl.
    intros Hused. rewrite (Hconnect _ _ _ _ _ _ _ _ Hcall). exact (Hmid Hused).
  - intros s1 s2 evs1 Hopt. apply setup_optimizers_Ok_inv in Hopt.
    destruct Hopt as [->|(opts & scheds & freqs & w & Hcall & ->)].
    + left. reflexivity.
    + right. exists opts, scheds, freqs, w. auto.
  - intros s1 s2 evs1 Hprec. apply setup_precision_plugin_Ok_inv in Hprec.
    destruct Hprec as (m & opts & scheds & w & Hcall & ->). simpl.
    split; [reflexivity|]. exists m, w. exact Hcall.
Qed.

(** Plugins that keep to these conditions: two optimizers, two
    frequencies. *)
Lemma lists_after_setup_witness :
  let self := Accelerator.mk Demo.native_amp (Demo.single_device false) in
  let s' := snd (fst (Accelerator.setup self Demo.fit
                        (Accelerator.init Demo.world0))) in
  (optimizers s' = [1%nat; 2%nat] /\ optimizer_frequencies s' = [1; 1]) /\
  frequencies_consistent (optimizers s') (optimizer_frequencies s').
Proof.
  intros self s'. split; [split; reflexivity|].
  destruct (lists_after_setup nat self Demo.fit
              (Accelerator.init Demo.world0) s'
              (snd (Accelerator.setup self Demo.fit
                      (Accelerator.init Demo.world0))))
    as [Hagree _].
  - reflexivity.
  - intros lm w opts scheds freqs w' [= <- _ <- _]. intros _. reflexivity.
  - intros m opts scheds w m' opts' scheds' w' [= _ <- _ _]. reflexivity.
  - intros Hused. reflexivity.
  - exact Hagree.
Defined.

(** C5, as stated, fails twice over.  With a training-type plugin that
    builds two optimizers and one frequency, [setup] completes with two
    optimizers and one frequency.  With a training-type plugin that builds
    two of each and a precision plugin whose [connect] hands back one
    optimizer, [setup] completes with one optimizer and two frequencies:
    [setup_precision_plugin] replaced the optimizers and not the
    frequencies. *)
Lemma lengths_disagree_after_setup :
  ~ lengths_agree_after_setup
      (Accelerator.mk Demo.native_amp Demo.mismatched) Demo.fit
      (Accelerator.init Demo.world0) /\
  ~ lengths_agree_after_setup
      (Accelerator.mk Demo.fusing (Demo.single_device false)) Demo.fit
      (Accelerator.init Demo.world0).
Proof.
  split; intros Hagree.
  - specialize (Hagree _ _ eq_refl). simpl in Hagree.
    discriminate Hagree. discriminate.
  - specialize (Hagree _ _ eq_refl). simpl in Hagree.
    discriminate Hagree. discriminate.
Qed.

(** ** Moving the optimizer state *)

(** What [_move_optimizer_state] puts in the place of an entry. *)
#[local] Abbreviation moved d :=
  (fun v => apply_to_collection v isinstance_Tensor move_data_to_device d).

(** The walk relocates: same structure, tensors on the device, the other
    leaves untouched. *)
Lemma moved_relocated (d : Device) (v : PyVal) : relocated d v (moved d v).
Proof.
  induction v as [| b | z | s | t | items IH | items IH | entries IH]
    using PyVal_nested_ind; simpl; try constructor.
  - induction IH as [|x l Hx _ IHl]; simpl; constructor; assumption.
  - induction IH as [|x l Hx _ IHl]; simpl; constructor; assumption.
  - induction IH as [|kv l Hkv _ IHl]; simpl; constructor; auto.
Qed.

(** Relocating twice to the same device is relocating once. *)
Lemma moved_idempotent (d : Device) (v : PyVal) :
  moved d (moved d v) = moved d v.
Proof.
  induction v as [| b | z | s | t | items IH | items IH | entries IH]
    using PyVal_nested_ind; simpl; try reflexivity.
  - f_equal. rewrite List.map_map. apply List.map_ext_Forall. exact IH.
  - f_equal. rewrite List.map_map. apply List.map_ext_Forall. exact IH.
  - f_equal. rewrite List.map_map. apply List.map_ext_Forall.
    eapply List.Forall_impl; [|exact IH]. intros kv Hkv. simpl.
    rewrite Hkv. reflexivity.
Qed.

(** Assigning to every key of a dictionary, from its own items, maps the
    dictionary. *)
Lemma foldl_insert_lookup (f : PyVal -> PyVal) (l : list (string * PyVal)) :
  NoDup l.*1 ->
  forall (m : gmap string PyVal) k,
    foldl (fun acc pv => <[fst pv := f (snd pv)]> acc) m l !! k
    = match (list_to_map l : gmap string PyVal) !! k with
      | Some v => Some (f v)
      | None => m !! k
      end.
Proof.
  induction l as [|[p v] l IH]; intros Hnodup m k; simpl.
  - rewrite lookup_empty. reflexivity.
  - apply NoDup_cons in Hnodup. destruct Hnodup as [Hfresh Hnodup].
    rewrite (IH Hnodup). destruct (decide (p = k)) as [->|Hne].
    + rewrite (not_elem_of_list_to_map_1 _ _ Hfresh).
      rewrite !lookup_insert_eq. reflexivity.
    + rewrite !(lookup_insert_ne _ p k) by exact Hne. reflexivity.
Qed.

Lemma foldl_insert_items (f : PyVal -> PyVal) (st : gmap string PyVal) :
  foldl (fun acc pv => <[fst pv := f (snd pv)]> acc) st (map_to_list st)
  = f <$> st.
Proof.
  apply map_eq. intros k.
  rewrite foldl_insert_lookup by apply NoDup_fst_map_to_list.
  rewrite list_to_map_to_list, lookup_fmap.
  destruct (st !! k) as [v|]; reflexivity.
Qed.

Section MoveOptimizerState.
Context {PS : Type}.

(** The inner loop: the entries of one optimizer, one after the other. *)
Lemma inner_loop (f : PyVal -> PyVal) (opt : OptRef)
    (items : list (string * PyVal)) (s : State PS) :
  exists s',
    Accelerator.for_each items
      (fun pv => Accelerator.set_state_entry opt (fst pv) (f (snd pv))) s
    = (Ok tt, s', []) /\
    same_outside_store s s' /\
    (forall o, o <> opt -> store (world s') o = store (world s) o) /\
    Optimizer.state (store (world s') opt)
    = foldl (fun acc pv => <[fst pv := f (snd pv)]> acc)
        (Optimizer.state (store (world s) opt)) items /\
    Optimizer.state_dict_impl (store (world s') opt)
    = Optimizer.state_dict_impl (store (world s) opt).
Proof.
  revert s. induction items as [|[p v] items IH]; intros s; simpl.
  - exists s. repeat split; reflexivity.
  - unfold bind at 1. unfold Accelerator.set_state_entry at 1, modify at 1.
    match goal with
    | |- context [Accelerator.for_each items ?body ?s1] =>
        destruct (IH s1) as (s' & Hrun & Hsame & Hother & Hstate & Hexport)
    end.
    exists s'. rewrite Hrun. simpl in *.
    split; [reflexivity|]. split; [exact Hsame|]. split; [|split].
    + intros o Hne. rewrite (Hother o Hne).
      apply fn_lookup_alter_ne. congruence.
    + rewrite Hstate, fn_lookup_alter. reflexivity.
    + rewrite Hexport, fn_lookup_alter. reflexivity.
Qed.

Variable self : Accelerator.t PS.

(** The body of the outer loop: one optimizer, all of its entries. *)
Lemma outer_body (d : Device) (opt : OptRef) (s : State PS) :
  exists s',
    (let* items :=
       gets (fun s => map_to_list (Optimizer.state (store (world s) opt))) in
     Accelerator.for_each items (fun pv =>
       Accelerator.set_state_entry opt (fst pv)
         (apply_to_collection (snd pv) isinstance_Tensor
            move_data_to_device d)))%acc s
    = (Ok tt, s', []) /\
    same_outside_store s s' /\
    (forall o, o <> opt -> store (world s') o = store (world s) o) /\
    Optimizer.state (store (world s') opt)
    = moved d <$> Optimizer.state (store (world s) opt) /\
    Optimizer.state_dict_impl (store (world s') opt)
    = Optimizer.state_dict_impl (store (world s) opt).
Proof.
  unfold bind, gets.
  destruct (inner_loop (moved d) opt
              (map_to_list (Optimizer.state (store (world s) opt))) s)
    as (s' & Hrun & Hsame & Hother & Hstate & Hexport).
  exists s'. rewrite Hrun. rewrite (foldl_insert_items (moved d)) in Hstate. auto.
Qed.

(** The outer loop: every optimizer of the list, aliases included. *)
Lemma outer_loop (d : Device) (opts : list OptRef) (s : State PS) :
  exists s',
    Accelerator.for_each opts (fun opt =>
      let* items :=
        gets (fun s => map_to_list (Optimizer.state (store (world s) opt))) in
      Accelerator.for_each items (fun pv =>
        Accelerator.set_state_entry opt (fst pv)
         (apply_to_collection (snd pv) isinstance_Tensor
            move_data_to_device d)))%acc s
    = (Ok tt, s', []) /\
    same_outside_store s s' /\
    (forall o, o ∉ opts -> store (world s') o = store (world s) o) /\
    (forall o, o ∈ opts ->
       Optimizer.state (store (world s') o)
       = moved d <$> Optimizer.state (store (world s) o)).
Proof.
  revert s. induction opts as [|opt opts IH]; intros s.
  - exists s. simpl. split; [reflexivity|]. split; [repeat split|].
    split; [reflexivity|]. intros o Hin. apply elem_of_nil in Hin. contradiction.
  - cbn [Accelerator.for_each]. unfold bind at 1.
    destruct (outer_body d opt s)
      as (s1 & Hrun1 & Hsame1 & Hother1 & Hstate1 & _).
    rewrite Hrun1.
    destruct (IH s1) as (s' & Hrun & Hsame & Hother & Hstate).
    exists s'. rewrite Hrun. split; [reflexivity|].
    split; [|split].
    + destruct Hsame1 as (? & ? & ? & ?), Hsame as (? & ? & ? & ?).
      repeat split; congruence.
    + intros o Hout. apply not_elem_of_cons in Hout. destruct Hout as [Hne Hout].
      rewrite (Hother o Hout). apply Hother1. exact Hne.
    + intros o Hin. destruct (decide (o ∈ opts)) as [Hlater|Hlast].
      * rewrite (Hstate o Hlater). destruct (decide (o = opt)) as [->|Hne].
        -- rewrite Hstate1, <- map_fmap_compose. apply map_fmap_ext.
           intros k v _. apply moved_idempotent.
        -- rewrite (Hother1 o Hne). reflexivity.
      * apply elem_of_cons in Hin. destruct Hin as [->|Hin]; [|contradiction].
        rewrite (Hother opt Hlast). exact Hstate1.
Qed.

End MoveOptimizerState.

(** C8: [_move_optimizer_state] returns without calling a collaborator and
    rewrites, in every optimizer of the accelerator's list, every entry of
    the optimizer's state to a value of the same nested structure whose
    tensors are on the target device and whose other leaves are unchanged;
    it adds and removes no entry, and touches nothing else.  The target is
    the device given or, when none is given, the root device of the
    training-type plugin. *)
Theorem move_optimizer_state_relocates (PS : Type) (self : Accelerator.t PS)
    (device : option Device) (s : State PS) :
  let target :=
    match device with
    | Some d => d
    | None =>
        TrainingTypePlugin.root_device
          (Accelerator.training_type_plugin self) (world s)
    end in
  exists s',
    Accelerator._move_optimizer_state self device s = (Ok tt, s', []) /\
    same_outside_store s s' /\
    (forall opt, opt ∉ optimizers s ->
       store (world s') opt = store (world s) opt) /\
    (forall opt, opt ∈ optimizers s ->
       (forall p,
          Optimizer.state (store (world s') opt) !! p = None <->
          Optimizer.state (store (world s) opt) !! p = None) /\
       (forall p v,
          Optimizer.state (store (world s) opt) !! p = Some v ->
          exists v',
            Optimizer.state (store (world s') opt) !! p = Some v' /\
            relocated target v v')).
Proof.
  intros target.
  unfold Accelerator._move_optimizer_state, bind at 1 2,
    Accelerator.root_device, gets at 1 2.
  cbn beta iota.
  replace (default _ device) with target by (destruct device; reflexivity).
  destruct (outer_loop target (optimizers s) s)
    as (s' & Hrun & Hsame & Hother & Hstate).
  exists s'. rewrite Hrun. split; [reflexivity|]. split; [exact Hsame|].
  split; [exact Hother|].
  intros opt Hin. rewrite (Hstate opt Hin). split.
  - intros p. rewrite lookup_fmap. apply fmap_None.
  - intros p v Hp. exists (moved target v).
    rewrite lookup_fmap, Hp. split; [reflexivity|]. apply moved_relocated.
Qed.

(** An accelerator whose list names the same optimizer twice: its moments
    end up on the root device of the plugin, [cuda:0]. *)
Lemma move_optimizer_state_relocates_witness :
  let self := Accelerator.mk Demo.native_amp (Demo.single_device false) in
  let s := {| optimizers := [1%nat; 1%nat]; lr_schedulers := [];
              optimizer_frequencies := []; world := Demo.world0 |} in
  exists s' v',
    Accelerator._move_optimizer_state self None s = (Ok tt, s', []) /\
    Optimizer.state (store (world s') 1%nat) !! "w" = Some v' /\
    relocated (cuda 0)
      (VDict [("step", VInt 3);
              ("exp_avg", VTensor {| payload := [4; 5]; device := cpu |})])
      v'.
Proof.
  intros self s.
  destruct (move_optimizer_state_relocates nat self None s)
    as (s' & Hrun & _ & _ & Hmoved).
  destruct (Hmoved 1%nat) as [_ Hentries]; [apply list_elem_of_here|].
  destruct (Hentries "w"
              (VDict [("step", VInt 3);
                      ("exp_avg",
                       VTensor {| payload := [4; 5]; device := cpu |})]))
    as (v' & Hlookup & Hrelocated); [reflexivity|].
  exists s', v'. auto.
Defined.

(** * Further properties *)

(** ** The lists are assigned in [setup] and [pre_dispatch] only *)

Section Frame.
Context {PS : Type}.









(** The run of [_move_optimizer_state], with or without a device. *)
Lemma move_optimizer_state_run (self : Accelerator.t PS)
    (device : option Device) (s : State PS) :
  let target :=
    default (TrainingTypePlugin.root_device
               (Accelerator.training_type_plugin self) (world s)) device in
  exists s',
    Accelerator._move_optimizer_state self device s = (Ok tt, s', []) /\
    same_outside_store s s' /\
    (forall opt, opt ∉ optimizers s ->
       store (world s') opt = store (world s) opt) /\
    (forall opt, opt ∈ optimizers s ->
       Optimizer.state (store (world s') opt)
       = moved target <$> Optimizer.state (store (world s) opt)).
Proof.
  intros target.
  unfold Accelerator._move_optimizer_state, bind at 1 2,
    Accelerator.root_device, gets at 1 2.
  cbn beta iota. fold target.
  destruct (outer_loop target (optimizers s) s)
    as (s' & Hrun & Hsame & Hother & Hstate).
  exists s'. rewrite Hrun. auto.
Qed.


End Frame.


Section FrameOfMethods.
Context {PS : Type}.
Variable self : Accelerator.t PS.
Variable trainer : Trainer.t.






End FrameOfMethods.



(** ** Moving the optimizer state again *)

(** X1: moving the optimizer state to a device twice leaves every optimizer
    with the state it had after the first move. *)
Theorem move_optimizer_state_twice (PS : Type) (self : Accelerator.t PS)
    (d : Device) (s : State PS) :
  exists s1 s2,
    Accelerator._move_optimizer_state self (Some d) s = (Ok tt, s1, []) /\
    Accelerator._move_optimizer_state self (Some d) s1 = (Ok tt, s2, []) /\
    forall opt,
      Optimizer.state (store (world s2) opt)
      = Optimizer.state (store (world s1) opt).
Proof.
  destruct (move_optimizer_state_run self (Some d) s)
    as (s1 & Hrun1 & Hsame1 & Hother1 & Hstate1).
  destruct (move_optimizer_state_run self (Some d) s1)
    as (s2 & Hrun2 & Hsame2 & Hother2 & Hstate2).
  simpl in Hstate1, Hstate2.
  exists s1, s2. split; [exact Hrun1|]. split; [exact Hrun2|].
  intros opt. destruct Hsame1 as (Hopts & _).
  destruct (decide (opt ∈ optimizers s)) as [Hin|Hout].
  - rewrite Hstate2 by (rewrite Hopts; exact Hin).
    rewrite (Hstate1 opt Hin), <- map_fmap_compose.
    apply map_fmap_ext. intros k v _. apply moved_idempotent.
  - rewrite Hother2 by (rewrite Hopts; exact Hout). reflexivity.
Qed.

(** ** What [setup] hands to [connect] *)

Section SetupFlow.
Context {PS : Type}.
Variable self : Accelerator.t PS.
Variable trainer : Trainer.t.

#[local] Abbreviation ttp := (Accelerator.training_type_plugin self).
#[local] Abbreviation pp := (Accelerator.precision_plugin self).

(** [setup_precision_plugin], from the outcome of [connect]. *)
Lemma setup_precision_plugin_run s r w :
  PrecisionPlugin.connect pp (TrainingTypePlugin.model ttp (world s))
    (optimizers s) (lr_schedulers s) (world s) = (r, w) ->
  Accelerator.setup_precision_plugin self s
  = (match r with Ok _ => Ok tt | Raise e => Raise e end,
     match r with
     | Ok (m, opts, scheds) =>
         {| optimizers := opts; lr_schedulers := scheds;
            optimizer_frequencies := optimizer_frequencies s;
            world := TrainingTypePlugin.set_model ttp m w |}
     | Raise _ => with_world s w
     end,
     [PP_connect (TrainingTypePlugin.model ttp (world s))
        (optimizers s) (lr_schedulers s)]).
Proof.
  intros Hconnect.
  unfold Accelerator.setup_precision_plugin, bind, Accelerator.model, gets, call.
  simpl. rewrite Hconnect.
  destruct r as [[[m opts] scheds]|e]; reflexivity.
Qed.

(** [setup], from the outcome of the plugin's [setup]. *)
Lemma setup_after_plugin_setup s w1 :
  TrainingTypePlugin.setup ttp (world s) = (Ok tt, w1) ->
  Accelerator.setup self trainer s
  = (let '(r, s2, evs) :=
       bind (if negb (TrainingTypePlugin.setup_optimizers_in_pre_dispatch ttp)
             then Accelerator.setup_optimizers self trainer
             else ret tt)
            (fun _ => Accelerator.setup_precision_plugin self)
            (with_world s w1) in
     (r, s2, TT_setup :: evs)).
Proof.
  intros Hsetup.
  unfold Accelerator.setup, bind at 1, Accelerator.setup_training_type_plugin,
    call at 1.
  rewrite Hsetup.
  destruct (bind _ _ (with_world s w1)) as [[r s2] evs]. reflexivity.
Qed.

End SetupFlow.

(** X3: in a fitting or tuning run with a plugin that does not defer, a
    [setup] that returns has called, in this order, the plugin's [setup],
    [init_optimizers] with the lightning module attached after that
    [setup], and [connect] with the model of the plugin and the optimizers
    and schedulers that [init_optimizers] had just returned.  It leaves
    the optimizers and schedulers that [connect] returned, the frequencies
    that [init_optimizers] returned, and the model that [connect] returned
    in the plugin's model slot. *)
Theorem eager_setup_flow (PS : Type) (self : Accelerator.t PS)
    (trainer : Trainer.t) (s s' : State PS) (evs : list Event) :
  let ttp := Accelerator.training_type_plugin self in
  let pp := Accelerator.precision_plugin self in
  TrainingTypePlugin.setup_optimizers_in_pre_dispatch ttp = false ->
  Trainer.fn (Trainer.state trainer) ∈ [Some FITTING; Some TUNING] ->
  Accelerator.setup self trainer s = (Ok tt, s', evs) ->
  exists w1 opts scheds freqs w2 m opts' scheds' w3,
    TrainingTypePlugin.setup ttp (world s) = (Ok tt, w1) /\
    TrainingTypePlugin.init_optimizers ttp trainer
      (TrainingTypePlugin.lightning_module ttp w1) w1
    = (Ok (opts, scheds, freqs), w2) /\
    PrecisionPlugin.connect pp (TrainingTypePlugin.model ttp w2) opts scheds w2
    = (Ok (m, opts', scheds'), w3) /\
    evs = [TT_setup;
           Acc_setup_optimizers trainer;
           TT_init_optimizers trainer
             (LightningModule.ref <$> TrainingTypePlugin.lightning_module ttp w1);
           PP_connect (TrainingTypePlugin.model ttp w2) opts scheds] /\
    s' = {| optimizers := opts'; lr_schedulers := scheds';
            optimizer_frequencies := freqs;
            world := TrainingTypePlugin.set_model ttp m w3 |}.
Proof.
  intros ttp pp Heager Hfit Hrun.
  destruct (TrainingTypePlugin.setup ttp (world s)) as [[[]|e] w1] eqn:Hsetup.
  2:{ unfold Accelerator.setup, bind at 1,
        Accelerator.setup_training_type_plugin, call in Hrun.
      fold ttp in Hrun. rewrite Hsetup in Hrun. discriminate. }
  rewrite (setup_after_plugin_setup self trainer s w1 Hsetup) in Hrun.
  fold ttp in Hrun. rewrite Heager in Hrun. cbn [negb] in Hrun.
  unfold bind in Hrun.
  destruct (TrainingTypePlugin.init_optimizers ttp trainer
              (TrainingTypePlugin.lightning_module ttp w1) w1)
    as [r w2] eqn:Hinit.
  rewrite (setup_optimizers_builds self trainer (with_world s w1) r w2 Hfit Hinit)
    in Hrun.
  destruct r as [[[opts scheds] freqs]|e]; [|discriminate].
  destruct (PrecisionPlugin.connect pp (TrainingTypePlugin.model ttp w2)
              opts scheds w2) as [rc w3] eqn:Hconnect.
  rewrite (setup_precision_plugin_run self
       {| optimizers := opts; lr_schedulers := scheds;
          optimizer_frequencies := freqs; world := w2 |}
       rc w3 Hconnect) in Hrun.
  destruct rc as [[[m opts'] scheds']|e]; [|discriminate].
  injection Hrun as <- <-.
  exists w1, opts, scheds, freqs, w2, m, opts', scheds', w3. auto 10.
Qed.

(** A setup of the concrete plugins, step by step. *)
Lemma eager_setup_flow_witness :
  let self := Accelerator.mk Demo.fusing (Demo.single_device false) in
  let run := Accelerator.setup self Demo.fit (Accelerator.init Demo.world0) in
  snd run = [TT_setup;
             Acc_setup_optimizers Demo.fit;
             TT_init_optimizers Demo.fit (Some 7%nat);
             PP_connect 7%nat [1%nat; 2%nat] [VStr "step_lr"]] /\
  optimizers (snd (fst run)) = [1%nat] /\
  optimizer_frequencies (snd (fst run)) = [1; 1].
Proof.
  intros self run.
  destruct (eager_setup_flow nat self Demo.fit (Accelerator.init Demo.world0)
              (snd (fst run)) (snd run))
    as (w1 & opts & scheds & freqs & w2 & m & opts' & scheds' & w3
        & Hsetup & Hinit & Hconnect & Hevs & Hstate).
  - reflexivity.
  - apply list_elem_of_here.
  - reflexivity.
  - injection Hsetup as <-. injection Hinit as <- <- <- <-.
    injection Hconnect as <- <- <- <-.
    rewrite Hevs, Hstate. repeat split.
Defined.

(** X4: with a plugin that defers the setup of the optimizers, a [setup]
    that returns has called the plugin's [setup] and then [connect], and
    nothing else; [connect] was given the optimizers and schedulers the
    accelerator had before, which are none on a new accelerator, and the
    frequencies are left as they were. *)
Theorem deferred_setup_flow (PS : Type) (self : Accelerator.t PS)
    (trainer : Trainer.t) (s s' : State PS) (evs : list Event) :
  let ttp := Accelerator.training_type_plugin self in
  let pp := Accelerator.precision_plugin self in
  TrainingTypePlugin.setup_optimizers_in_pre_dispatch ttp = true ->
  Accelerator.setup self trainer s = (Ok tt, s', evs) ->
  exists w1 m opts' scheds' w2,
    TrainingTypePlugin.setup ttp (world s) = (Ok tt, w1) /\
    PrecisionPlugin.connect pp (TrainingTypePlugin.model ttp w1)
      (optimizers s) (lr_schedulers s) w1
    = (Ok (m, opts', scheds'), w2) /\
    evs = [TT_setup;
           PP_connect (TrainingTypePlugin.model ttp w1)
             (optimizers s) (lr_schedulers s)] /\
    s' = {| optimizers := opts'; lr_schedulers := scheds';
            optimizer_frequencies := optimizer_frequencies s;
            world := TrainingTypePlugin.set_model ttp m w2 |}.
Proof.
  intros ttp pp Hdeferred Hrun.
  destruct (TrainingTypePlugin.setup ttp (world s)) as [[[]|e] w1] eqn:Hsetup.
  2:{ unfold Accelerator.setup, bind at 1,
        Accelerator.setup_training_type_plugin, call in Hrun.
      fold ttp in Hrun. rewrite Hsetup in Hrun. discriminate. }
  rewrite (setup_after_plugin_setup self trainer s w1 Hsetup) in Hrun.
  fold ttp in Hrun. rewrite Hdeferred in Hrun. cbn [negb] in Hrun.
  unfold bind, ret in Hrun.
  destruct (PrecisionPlugin.connect pp (TrainingTypePlugin.model ttp w1)
              (optimizers s) (lr_schedulers s) w1) as [rc w2] eqn:Hconnect.
  rewrite (setup_precision_plugin_run self (with_world s w1) rc w2 Hconnect)
    in Hrun.
  destruct rc as [[[m opts'] scheds']|e]; [|discriminate].
  injection Hrun as <- <-.
  exists w1, m, opts', scheds', w2. auto 10.
Qed.

(** On a new accelerator [connect] is given no optimizer and no
    scheduler. *)
Lemma deferred_setup_flow_witness :
  let self := Accelerator.mk Demo.native_amp (Demo.single_device true) in
  let run := Accelerator.setup self Demo.fit (Accelerator.init Demo.world0) in
  snd run = [TT_setup; PP_connect 7%nat [] []] /\
  optimizers (snd (fst run)) = [].
Proof.
  intros self run.
  destruct (deferred_setup_flow nat self Demo.fit
              (Accelerator.init Demo.world0) (snd (fst run)) (snd run))
    as (w1 & m & opts' & scheds' & w2 & Hsetup & Hconnect & Hevs & Hstate).
  - reflexivity.
  - reflexivity.
  - injection Hsetup as <-. injection Hconnect as <- <- <- <-.
    rewrite Hevs, Hstate. split; reflexivity.
Defined.

(** X5: [setup] is not undone when it fails half-way.  In a fitting or
    tuning run with a plugin that does not defer, when [connect] raises,
    [setup] raises the same exception and the accelerator keeps the three
    lists that [init_optimizers] returned. *)
Theorem setup_keeps_built_lists_when_connect_raises (PS : Type)
    (self : Accelerator.t PS) (trainer : Trainer.t) (s : State PS)
    (w1 w2 w3 : World PS) (opts : list OptRef) (scheds : list PyVal)
    (freqs : list Z) (e : Exn) :
  let ttp := Accelerator.training_type_plugin self in
  let pp := Accelerator.precision_plugin self in
  TrainingTypePlugin.setup_optimizers_in_pre_dispatch ttp = false ->
  Trainer.fn (Trainer.state trainer) ∈ [Some FITTING; Some TUNING] ->
  TrainingTypePlugin.setup ttp (world s) = (Ok tt, w1) ->
  TrainingTypePlugin.init_optimizers ttp trainer
    (TrainingTypePlugin.lightning_module ttp w1) w1
  = (Ok (opts, scheds, freqs), w2) ->
  PrecisionPlugin.connect pp (TrainingTypePlugin.model ttp w2) opts scheds w2
  = (Raise e, w3) ->
  Accelerator.setup self trainer s
  = (Raise e,
     {| optimizers := opts; lr_schedulers := scheds;
        optimizer_frequencies := freqs; world := w3 |},
     [TT_setup;
      Acc_setup_optimizers trainer;
      TT_init_optimizers trainer
        (LightningModule.ref <$> TrainingTypePlugin.lightning_module ttp w1);
      PP_connect (TrainingTypePlugin.model ttp w2) opts scheds]).
Proof.
  intros ttp pp Heager Hfit Hsetup Hinit Hconnect.
  rewrite (setup_after_plugin_setup self trainer s w1 Hsetup).
  fold ttp. rewrite Heager. cbn [negb]. unfold bind.
  rewrite (setup_optimizers_builds self trainer (with_world s w1) _ w2 Hfit Hinit).
  rewrite (setup_precision_plugin_run self
       {| optimizers := opts; lr_schedulers := scheds;
          optimizer_frequencies := freqs; world := w2 |}
       (Raise e) w3 Hconnect).
  reflexivity.
Qed.

(** A precision plugin that refuses to connect: the two optimizers the
    plugin built stay on the accelerator. *)
Lemma setup_keeps_built_lists_when_connect_raises_witness :
  let self := Accelerator.mk DemoRest.refusing (Demo.single_device false) in
  Accelerator.setup self Demo.fit (Accelerator.init Demo.world0)
  = (Raise (Raised "MisconfigurationException"),
     {| optimizers := [1%nat; 2%nat]; lr_schedulers := [VStr "step_lr"];
        optimizer_frequencies := [1; 1]; world := Demo.world0 |},
     [TT_setup; Acc_setup_optimizers Demo.fit;
      TT_init_optimizers Demo.fit (Some 7%nat);
      PP_connect 7%nat [1%nat; 2%nat] [VStr "step_lr"]]).
Proof.
  intros self.
  exact (setup_keeps_built_lists_when_connect_raises nat self Demo.fit
           (Accelerator.init Demo.world0) Demo.world0 Demo.world0 Demo.world0
           [1%nat; 2%nat] [VStr "step_lr"] [1; 1]
           (Raised "MisconfigurationException")
           eq_refl ltac:(apply list_elem_of_here) eq_refl eq_refl eq_refl).
Defined.

(** ** What [pre_dispatch] does, and in which order *)

Section PreDispatchFlow.
Context {PS : Type}.
Variable self : Accelerator.t PS.
Variable trainer : Trainer.t.

#[local] Abbreviation ttp := (Accelerator.training_type_plugin self).
#[local] Abbreviation pp := (Accelerator.precision_plugin self).

(** [pre_dispatch], from the state the move of the optimizer state left
    and the outcome of the plugin's [pre_dispatch]. *)
Lemma pre_dispatch_after_move s s1 r w1 :
  Accelerator._move_optimizer_state self None s = (Ok tt, s1, []) ->
  TrainingTypePlugin.pre_dispatch ttp (world s1) = (r, w1) ->
  Accelerator.pre_dispatch self trainer s
  = match r with
    | Ok _ =>
        let '(r', s2, evs) :=
          bind (if TrainingTypePlugin.setup_optimizers_in_pre_dispatch ttp
                then Accelerator.setup_optimizers self trainer
                else ret tt)
               (fun _ => call PP_pre_dispatch (PrecisionPlugin.pre_dispatch pp))
               (with_world s1 w1) in
        (r', s2, TT_pre_dispatch :: evs)
    | Raise e => (Raise e, with_world s1 w1, [TT_pre_dispatch])
    end.
Proof.
  intros Hmove Hhook.
  unfold Accelerator.pre_dispatch, bind at 1. rewrite Hmove.
  unfold bind at 1, call at 1. rewrite Hhook.
  destruct r as [[]|e]; [|reflexivity].
  destruct (bind _ _ (with_world s1 w1)) as [[r' s2] evs]. reflexivity.
Qed.

(** A returning [pre_dispatch] of a deferring plugin, in a fitting or
    tuning run, step by step. *)
Lemma deferred_pre_dispatch_inv s s' evs :
  TrainingTypePlugin.setup_optimizers_in_pre_dispatch ttp = true ->
  Trainer.fn (Trainer.state trainer) ∈ [Some FITTING; Some TUNING] ->
  Accelerator.pre_dispatch self trainer s = (Ok tt, s', evs) ->
  exists s1 w1 opts scheds freqs w2 w3,
    Accelerator._move_optimizer_state self None s = (Ok tt, s1, []) /\
    TrainingTypePlugin.pre_dispatch ttp (world s1) = (Ok tt, w1) /\
    TrainingTypePlugin.init_optimizers ttp trainer
      (TrainingTypePlugin.lightning_module ttp w1) w1
    = (Ok (opts, scheds, freqs), w2) /\
    PrecisionPlugin.pre_dispatch pp w2 = (Ok tt, w3) /\
    evs = [TT_pre_dispatch;
           Acc_setup_optimizers trainer;
           TT_init_optimizers trainer
             (LightningModule.ref <$> TrainingTypePlugin.lightning_module ttp w1);
           PP_pre_dispatch] /\
    s' = {| optimizers := opts; lr_schedulers := scheds;
            optimizer_frequencies := freqs; world := w3 |}.
Proof.
  intros Hdeferred Hfit Hrun.
  destruct (move_optimizer_state_run self None s) as (s1 & Hmove & _).
  destruct (TrainingTypePlugin.pre_dispatch ttp (world s1)) as [r w1] eqn:Hhook.
  rewrite (pre_dispatch_after_move s s1 r w1 Hmove Hhook) in Hrun.
  destruct r as [[]|e]; [|discriminate].
  rewrite Hdeferred in Hrun. unfold bind in Hrun.
  destruct (TrainingTypePlugin.init_optimizers ttp trainer
              (TrainingTypePlugin.lightning_module ttp w1) w1)
    as [ri w2] eqn:Hinit.
  rewrite (setup_optimizers_builds self trainer (with_world s1 w1) ri w2
             Hfit Hinit) in Hrun.
  destruct ri as [[[opts scheds] freqs]|e]; [|discriminate].
  unfold call in Hrun. cbn [world] in Hrun.
  destruct (PrecisionPlugin.pre_dispatch pp w2)
    as [[[]|e] w3] eqn:Hpp; [|discriminate].
  injection Hrun as <- <-.
  exists s1, w1, opts, scheds, freqs, w2, w3. auto 10.
Qed.

End PreDispatchFlow.

(** X6: [pre_dispatch] first moves the state of the optimizers it has to
    the root device and then calls the plugin's [pre_dispatch], which runs
    in the world with the moved state.  If that hook raises, [pre_dispatch]
    raises the same exception with the moved state in place, and neither
    [setup_optimizers] nor the precision plugin's [pre_dispatch] is run. *)
Theorem pre_dispatch_moves_first (PS : Type) (self : Accelerator.t PS)
    (trainer : Trainer.t) (s : State PS) :
  let ttp := Accelerator.training_type_plugin self in
  let root := TrainingTypePlugin.root_device ttp (world s) in
  exists s1,
    same_outside_store s s1 /\
    (forall opt, opt ∈ optimizers s ->
       Optimizer.state (store (world s1) opt)
       = (fun v => apply_to_collection v isinstance_Tensor
                     move_data_to_device root)
           <$> Optimizer.state (store (world s) opt)) /\
    (forall r w,
       TrainingTypePlugin.pre_dispatch ttp (world s1) = (r, w) ->
       exists rest,
         snd (Accelerator.pre_dispatch self trainer s) = TT_pre_dispatch :: rest) /\
    (forall e w,
       TrainingTypePlugin.pre_dispatch ttp (world s1) = (Raise e, w) ->
       Accelerator.pre_dispatch self trainer s
       = (Raise e, with_world s1 w, [TT_pre_dispatch])).
Proof.
  intros ttp root.
  destruct (move_optimizer_state_run self None s)
    as (s1 & Hmove & Hsame & _ & Hstate).
  exists s1. split; [exact Hsame|]. split; [exact Hstate|]. split.
  - intros r w Hhook.
    rewrite (pre_dispatch_after_move self trainer s s1 r w Hmove Hhook).
    destruct r as [[]|e]; [|eexists; reflexivity].
    destruct (bind _ _ (with_world s1 w)) as [[r' s2] evs]. eexists. reflexivity.
  - intros e w Hhook.
    exact (pre_dispatch_after_move self trainer s s1 (Raise e) w Hmove Hhook).
Qed.

(** A plugin whose [pre_dispatch] raises: the moments of the optimizer are
    on the root device all the same. *)
Lemma pre_dispatch_moves_first_witness :
  let self := Accelerator.mk Demo.native_amp DemoRest.stalling in
  let s := {| optimizers := [1%nat]; lr_schedulers := [];
              optimizer_frequencies := []; world := Demo.world0 |} in
  exists s1,
    Accelerator.pre_dispatch self Demo.fit s
    = (Raise (Raised "RuntimeError"), s1, [TT_pre_dispatch]) /\
    Optimizer.state (store (world s1) 1%nat) !! "w"
    = Some (VDict [("step", VInt 3);
                   ("exp_avg",
                    VTensor {| payload := [4; 5]; device := cuda 0 |})]).
Proof.
  intros self s.
  destruct (pre_dispatch_moves_first nat self Demo.fit s)
    as (s1 & _ & Hstate & _ & Hraise).
  exists (with_world s1 (world s1)). split.
  - exact (Hraise (Raised "RuntimeError") (world s1) eq_refl).
  - simpl. rewrite (Hstate 1%nat) by apply list_elem_of_here.
    rewrite lookup_fmap. reflexivity.
Defined.

(** X7: with a plugin that defers the setup of the optimizers, in a fitting
    or tuning run, a [pre_dispatch] that returns has called the plugin's
    [pre_dispatch], [init_optimizers] and the precision plugin's
    [pre_dispatch], in this order, and leaves the three lists that
    [init_optimizers] returned.  The optimizers built here are stored
    after the move of the optimizer state: the world is left as the
    precision plugin's hook left it. *)
Theorem deferred_pre_dispatch_flow (PS : Type) (self : Accelerator.t PS)
    (trainer : Trainer.t) (s s' : State PS) (evs : list Event) :
  let ttp := Accelerator.training_type_plugin self in
  let pp := Accelerator.precision_plugin self in
  TrainingTypePlugin.setup_optimizers_in_pre_dispatch ttp = true ->
  Trainer.fn (Trainer.state trainer) ∈ [Some FITTING; Some TUNING] ->
  Accelerator.pre_dispatch self trainer s = (Ok tt, s', evs) ->
  exists s1 w1 opts scheds freqs w2 w3,
    Accelerator._move_optimizer_state self None s = (Ok tt, s1, []) /\
    TrainingTypePlugin.pre_dispatch ttp (world s1) = (Ok tt, w1) /\
    TrainingTypePlugin.init_optimizers ttp trainer
      (TrainingTypePlugin.lightning_module ttp w1) w1
    = (Ok (opts, scheds, freqs), w2) /\
    PrecisionPlugin.pre_dispatch pp w2 = (Ok tt, w3) /\
    evs = [TT_pre_dispatch;
           Acc_setup_optimizers trainer;
           TT_init_optimizers trainer
             (LightningModule.ref <$> TrainingTypePlugin.lightning_module ttp w1);
           PP_pre_dispatch] /\
    s' = {| optimizers := opts; lr_schedulers := scheds;
            optimizer_frequencies := freqs; world := w3 |}.
Proof.
  intros ttp pp Hdeferred Hfit Hrun.
  exact (deferred_pre_dispatch_inv self trainer s s' evs Hdeferred Hfit Hrun).
Qed.

(** The deferring concrete plugin builds its two optimizers in
    [pre_dispatch]. *)
Lemma deferred_pre_dispatch_flow_witness :
  let self := Accelerator.mk Demo.native_amp (Demo.single_device true) in
  let run :=
    Accelerator.pre_dispatch self Demo.fit (Accelerator.init Demo.world0) in
  snd run = [TT_pre_dispatch; Acc_setup_optimizers Demo.fit;
             TT_init_optimizers Demo.fit (Some 7%nat); PP_pre_dispatch] /\
  optimizers (snd (fst run)) = [1%nat; 2%nat] /\
  optimizer_frequencies (snd (fst run)) = [1; 1].
Proof.
  intros self run.
  destruct (deferred_pre_dispatch_flow nat self Demo.fit
              (Accelerator.init Demo.world0) (snd (fst run)) (snd run))
    as (s1 & w1 & opts & scheds & freqs & w2 & w3
        & _ & Hhook & Hinit & _ & Hevs & Hstate).
  - reflexivity.
  - apply list_elem_of_here.
  - reflexivity.
  - injection Hhook as <-. injection Hinit as <- <- <- <-.
    rewrite Hevs, Hstate. repeat split.
Defined.



(** ** The step methods run inside the context *)

Section WithContext.
Context {PS : Type}.

(** A [with] statement around one returning call, outcome by outcome. *)
Lemma with_context_run (ctx_ev step_ev : Forwarded)
    (ctx : Hook PS (ContextManager.t PS)) (step : Hook PS PyVal)
    (s : State PS) :
  AcceleratorRest.returning
    (AcceleratorRest.with_context (AcceleratorRest.call ctx_ev ctx)
       (AcceleratorRest.call step_ev step)) s
  = match ctx (world s) with
    | (Raise e, w) => (Raise e, with_world s w, [ctx_ev])
    | (Ok cm, w1) =>
        match ContextManager.__enter__ cm w1 with
        | (Raise e, w2) => (Raise e, with_world s w2, [ctx_ev; CM_enter])
        | (Ok _, w2) =>
            match step w2 with
            | (r, w3) =>
                match ContextManager.__exit__ cm (raised_by r) w3 with
                | (x, w4) =>
                    (match r, x with
                     | _, Raise e2 => Raise e2
                     | Ok v, Ok _ => Ok v
                     | Raise e, Ok true => Ok VNone
                     | Raise e, Ok false => Raise e
                     end,
                     with_world s w4,
                     [ctx_ev; CM_enter; step_ev; CM_exit (raised_by r)])
                end
            end
        end
    end.
Proof.
  unfold AcceleratorRest.returning, AcceleratorRest.with_context,
    AcceleratorRest.bind, AcceleratorRest.call, AcceleratorRest.attempt,
    AcceleratorRest.ret, AcceleratorRest.raise.
  destruct (ctx (world s)) as [[cm|e] w1]; [|reflexivity]. simpl.
  destruct (ContextManager.__enter__ cm w1) as [[v0|e] w2]; [|reflexivity].
  simpl.
  destruct (step w2) as [[v|e] w3]; simpl.
  - destruct (ContextManager.__exit__ cm None w3) as [[b|e2] w4]; reflexivity.
  - destruct (ContextManager.__exit__ cm (Some e) w3) as [[[|]|e2] w4];
      reflexivity.
Qed.

(** Every step method is such a statement. *)
Lemma step_method_unfold (kind : StepKind) (self : AcceleratorRest.t PS)
    (step_kwargs : list (string * PyVal)) :
  step_method kind self step_kwargs
  = AcceleratorRest.returning
      (AcceleratorRest.with_context
         (AcceleratorRest.call (context_event kind) (step_context kind self))
         (AcceleratorRest.call (step_event kind (List.map snd step_kwargs))
            (step_hook kind self (List.map snd step_kwargs)))).
Proof. destruct kind; reflexivity. Qed.

End WithContext.

(** X9: in [training_step], [validation_step], [test_step] and
    [predict_step] the context of the precision plugin is left exactly once
    whenever it was entered, after the step, whether the step returned or
    raised; the step of the training-type plugin is called with the values
    of [step_kwargs] in their order, and only between entering and
    leaving.  When the context cannot be made or entered, the step is not
    called. *)
Theorem step_runs_inside_context (PS : Type) (kind : StepKind)
    (self : AcceleratorRest.t PS) (step_kwargs : list (string * PyVal))
    (s : State PS) :
  let args := List.map snd step_kwargs in
  let evs := snd (step_method kind self step_kwargs s) in
  (forall cm w1 v0 w2,
     step_context kind self (world s) = (Ok cm, w1) ->
     ContextManager.__enter__ cm w1 = (Ok v0, w2) ->
     evs = [context_event kind; CM_enter; step_event kind args;
            CM_exit (raised_by (fst (step_hook kind self args w2)))]) /\
  (forall e w,
     step_context kind self (world s) = (Raise e, w) ->
     evs = [context_event kind]) /\
  (forall cm w1 e w2,
     step_context kind self (world s) = (Ok cm, w1) ->
     ContextManager.__enter__ cm w1 = (Raise e, w2) ->
     evs = [context_event kind; CM_enter]).
Proof.
  intros args evs. subst evs.
  rewrite step_method_unfold, with_context_run. fold args.
  split; [|split].
  - intros cm w1 v0 w2 -> ->.
    destruct (step_hook kind self args w2) as [r w3].
    destruct (ContextManager.__exit__ cm (raised_by r) w3) as [x w4].
    reflexivity.
  - intros e w ->. reflexivity.
  - intros cm w1 e w2 -> ->. reflexivity.
Qed.

(** A training step of the concrete plugins: mixed precision is on inside
    the step and off after it. *)
Lemma step_runs_inside_context_witness :
  let self := DemoRest.accelerator None false in
  let run :=
    AcceleratorRest.training_step self DemoRest.step_kwargs
      (Accelerator.init Demo.world0) in
  snd run = [PP_train_step_context; CM_enter;
             TT_training_step [VInt 5; VInt 0]; CM_exit None] /\
  fst (fst run) = Ok (VTuple [VInt 1; VInt 5]) /\
  plugin_state (world (snd (fst run))) = 0%nat.
Proof.
  intros self run. split; [|split; reflexivity].
  destruct (step_runs_inside_context nat Train self DemoRest.step_kwargs
              (Accelerator.init Demo.world0)) as [Hentered _].
  exact (Hentered (DemoRest.autocast false) Demo.world0 VNone
           {| plugin_state := 1%nat; store := store Demo.world0 |}
           eq_refl eq_refl).
Defined.

(** X10: what a step method returns or raises, once its context is
    entered.  If the step returns, the method returns that value; if the
    step raises, the method raises the same exception, unless [__exit__]
    swallows it, and then the method returns [None]; if [__exit__] raises,
    the method raises what [__exit__] raised, in place of the value or of
    the exception of the step. *)
Theorem step_outcome (PS : Type) (kind : StepKind)
    (self : AcceleratorRest.t PS) (step_kwargs : list (string * PyVal))
    (s : State PS) (cm : ContextManager.t PS) (w1 w2 w3 w4 : World PS)
    (v0 : PyVal) (r : Outcome PyVal) (x : Outcome bool) :
  let args := List.map snd step_kwargs in
  step_context kind self (world s) = (Ok cm, w1) ->
  ContextManager.__enter__ cm w1 = (Ok v0, w2) ->
  step_hook kind self args w2 = (r, w3) ->
  ContextManager.__exit__ cm (raised_by r) w3 = (x, w4) ->
  fst (step_method kind self step_kwargs s)
  = (match r, x with
     | _, Raise e2 => Raise e2
     | Ok v, Ok _ => Ok v
     | Raise e, Ok true => Ok VNone
     | Raise e, Ok false => Raise e
     end,
     with_world s w4).
Proof.
  intros args Hctx Henter Hstep Hexit.
  rewrite step_method_unfold, with_context_run. fold args.
  rewrite Hctx, Henter, Hstep, Hexit. reflexivity.
Qed.

(** A step that raises, under a context that lets the exception through
    and under one that swallows it. *)
Lemma step_outcome_witness :
  let s := Accelerator.init Demo.world0 in
  let on := {| plugin_state := 1%nat; store := store Demo.world0 |} in
  let off := {| plugin_state := 0%nat; store := store Demo.world0 |} in
  fst (AcceleratorRest.validation_step (DemoRest.accelerator None false) [] s)
  = (Raise (Raised "TypeError"), with_world s off) /\
  fst (AcceleratorRest.validation_step (DemoRest.accelerator None true) [] s)
  = (Ok VNone, with_world s off).
Proof.
  intros s on off. split.
  - exact (step_outcome nat Validation (DemoRest.accelerator None false) [] s
             (DemoRest.autocast false) Demo.world0 on on off VNone
             (Raise (Raised "TypeError")) (Ok false)
             eq_refl eq_refl eq_refl eq_refl).
  - exact (step_outcome nat Validation (DemoRest.accelerator None true) [] s
             (DemoRest.autocast true) Demo.world0 on on off VNone
             (Raise (Raised "TypeError")) (Ok true)
             eq_refl eq_refl eq_refl eq_refl).
Defined.

(** ** The optimizer step and the zeroing of gradients *)

(** X11: [optimizer_zero_grad] needs a lightning module.  With none
    attached it raises [AttributeError] and calls nothing; with one
    attached it calls that module's [optimizer_zero_grad] once, with the
    four arguments it was given, and returns [None] whatever the module
    returned. *)
Theorem optimizer_zero_grad_needs_module (PS : Type)
    (self : AcceleratorRest.t PS) (current_epoch batch_idx : Z)
    (optimizer : OptRef) (opt_idx : Z) (s : State PS) :
  let lm :=
    TrainingTypePlugin.lightning_module
      (Accelerator.training_type_plugin (AcceleratorRest.accelerator self))
      (world s) in
  let run :=
    AcceleratorRest.optimizer_zero_grad self current_epoch batch_idx
      optimizer opt_idx s in
  (lm = None -> run = (Raise (Raised "AttributeError"), s, [])) /\
  (forall m r w,
     lm = Some m ->
     AcceleratorRest.module_optimizer_zero_grad self m current_epoch batch_idx
       optimizer opt_idx (world s) = (r, w) ->
     run = (match r with Ok _ => Ok VNone | Raise e => Raise e end,
            with_world s w,
            [LM_optimizer_zero_grad (LightningModule.ref m) current_epoch
               batch_idx optimizer opt_idx])).
Proof.
  intros lm run. subst run.
  unfold AcceleratorRest.optimizer_zero_grad, AcceleratorRest.bind,
    AcceleratorRest.lightning_module, AcceleratorRest.gets,
    AcceleratorRest.call, AcceleratorRest.raise, AcceleratorRest.ret.
  fold lm. split.
  - intros ->. reflexivity.
  - intros m r w -> Hhook. simpl. rewrite Hhook. destruct r; reflexivity.
Qed.

(** With and without a module, on the concrete plugins. *)
Lemma optimizer_zero_grad_needs_module_witness :
  let s := Accelerator.init Demo.world0 in
  AcceleratorRest.optimizer_zero_grad (DemoRest.accelerator None false)
    0 0 1%nat 0 s
  = (Raise (Raised "AttributeError"), s, []) /\
  AcceleratorRest.optimizer_zero_grad
    (DemoRest.accelerator (Some Demo.module) false) 3 4 1%nat 0 s
  = (Ok VNone, s, [LM_optimizer_zero_grad 7%nat 3 4 1%nat 0]).
Proof.
  intros s. split.
  - destruct (optimizer_zero_grad_needs_module nat
                (DemoRest.accelerator None false) 0 0 1%nat 0 s) as [Hnone _].
    apply Hnone. reflexivity.
  - destruct (optimizer_zero_grad_needs_module nat
                (DemoRest.accelerator (Some Demo.module) false) 3 4 1%nat 0 s)
      as [_ Hsome].
    exact (Hsome Demo.module (Ok (VStr "zeroed")) Demo.world0 eq_refl eq_refl).
Defined.

(** X12: [optimizer_step] hands the precision plugin the module it was
    given when that module is true, and the attached lightning module (or
    [None]) when no module is given; a module that is given but false, such
    as an empty container, is treated as not given.  The precision plugin
    is called once, and what it returns is dropped. *)
Theorem optimizer_step_resolves_model (PS : Type)
    (self : AcceleratorRest.t PS) (optimizer : OptRef) (opt_idx : Z)
    (closure : Hook PS PyVal) (kwargs : list (string * PyVal))
    (s : State PS) :
  let lm :=
    TrainingTypePlugin.lightning_module
      (Accelerator.training_type_plugin (AcceleratorRest.accelerator self))
      (world s) in
  let hook model :=
    PrecisionPluginRest.optimizer_step (AcceleratorRest.precision_plugin self)
      model optimizer opt_idx closure kwargs (world s) in
  let result (r : Outcome PyVal) :=
    match r with Ok _ => Ok VNone | Raise e => Raise e end in
  (forall given r w,
     hook (Some given) = (r, w) ->
     AcceleratorRest.optimizer_step self optimizer opt_idx closure
       (Some {| ModuleArgument.ref := given; ModuleArgument.truthy := true |})
       kwargs s
     = (result r, with_world s w,
        [PP_optimizer_step (Some given) optimizer opt_idx kwargs])) /\
  (forall r w,
     hook (LightningModule.ref <$> lm) = (r, w) ->
     AcceleratorRest.optimizer_step self optimizer opt_idx closure None kwargs s
     = (result r, with_world s w,
        [PP_optimizer_step (LightningModule.ref <$> lm) optimizer opt_idx
           kwargs])) /\
  (forall given,
     AcceleratorRest.optimizer_step self optimizer opt_idx closure
       (Some {| ModuleArgument.ref := given; ModuleArgument.truthy := false |})
       kwargs s
     = AcceleratorRest.optimizer_step self optimizer opt_idx closure None
         kwargs s).
Proof.
  intros lm hook result. subst hook result.
  unfold AcceleratorRest.optimizer_step, AcceleratorRest.bind,
    AcceleratorRest.lightning_module, AcceleratorRest.gets,
    AcceleratorRest.call, AcceleratorRest.ret.
  fold lm. simpl. split; [|split].
  - intros given r w ->. destruct r; reflexivity.
  - intros r w ->. destruct r; reflexivity.
  - intros given. reflexivity.
Qed.

(** The closure is run by the concrete precision plugin; the module given
    wins over the attached one, unless it is false. *)
Lemma optimizer_step_resolves_model_witness :
  let self := DemoRest.accelerator (Some Demo.module) false in
  let s := Accelerator.init Demo.world0 in
  let closure := Demo.returns (VInt 3) in
  AcceleratorRest.optimizer_step self 1%nat 0 closure
    (Some {| ModuleArgument.ref := 9%nat; ModuleArgument.truthy := true |}) [] s
  = (Ok VNone, s, [PP_optimizer_step (Some 9%nat) 1%nat 0 []]) /\
  AcceleratorRest.optimizer_step self 1%nat 0 closure
    (Some {| ModuleArgument.ref := 9%nat; ModuleArgument.truthy := false |}) [] s
  = (Ok VNone, s, [PP_optimizer_step (Some 7%nat) 1%nat 0 []]).
Proof.
  intros self s closure.
  destruct (optimizer_step_resolves_model nat self 1%nat 0 closure [] s)
    as (Hgiven & Hnone & Hfalse).
  split.
  - exact (Hgiven 9%nat (Ok (VInt 3)) Demo.world0 eq_refl).
  - rewrite Hfalse.
    exact (Hnone (Ok (VInt 3)) Demo.world0 eq_refl).
Defined.

(** ** The forwarding methods keep the lists *)


(** ** A backward pass that fails *)

(** X14: when the precision plugin's [backward] raises, [backward] raises
    the same exception, in the world that hook left, and neither
    [post_backward] hook is called. *)
Theorem backward_stops_when_gradients_fail (PS : Type)
    (self : Accelerator.t PS) (closure_loss scaled : Tensor)
    (args : list PyVal) (kwargs : list (string * PyVal)) (s : State PS)
    (v1 : PyVal) (w1 w2 w3 : World PS) (e : Exn) :
  let ttp := Accelerator.training_type_plugin self in
  let pp := Accelerator.precision_plugin self in
  let lm := TrainingTypePlugin.lightning_module ttp in
  TrainingTypePlugin.pre_backward ttp closure_loss (world s) = (Ok v1, w1) ->
  PrecisionPlugin.pre_backward pp (lm w1) closure_loss w1 = (Ok scaled, w2) ->
  PrecisionPlugin.backward pp (lm w2) scaled args kwargs w2 = (Raise e, w3) ->
  Accelerator.backward self closure_loss args kwargs s
  = (Raise e, with_world s w3,
     [TT_pre_backward closure_loss;
      PP_pre_backward (LightningModule.ref <$> lm w1) closure_loss;
      PP_backward (LightningModule.ref <$> lm w2) scaled args kwargs]).
Proof.
  intros ttp pp lm Hpre Hscale Hbackward.
  unfold Accelerator.backward, bind, call, Accelerator.lightning_module, gets.
  fold ttp pp. simpl. rewrite Hpre. simpl. fold lm. rewrite Hscale. simpl.
  rewrite Hbackward. reflexivity.
Qed.

(** A precision plugin whose [backward] raises: the run stops after three
    calls. *)
Lemma backward_stops_when_gradients_fail_witness :
  let self := Accelerator.mk DemoRest.diverging (Demo.single_device false) in
  let s := Accelerator.init Demo.world0 in
  Accelerator.backward self Demo.loss [] [] s
  = (Raise (Raised "RuntimeError"), s,
     [TT_pre_backward Demo.loss;
      PP_pre_backward (Some 7%nat) Demo.loss;
      PP_backward (Some 7%nat) (Demo.scale Demo.loss) [] []]).
Proof.
  intros self s.
  exact (backward_stops_when_gradients_fail nat self Demo.loss
           (Demo.scale Demo.loss) [] [] s VNone Demo.world0 Demo.world0
           Demo.world0 (Raised "RuntimeError") eq_refl eq_refl eq_refl).
Defined.

(** ** The exported state after a move *)

Section ExportAfterMove.
Context {PS : Type}.

(** The loops leave the export method of every optimizer as it is. *)
Lemma outer_loop_export (d : Device) (opts : list OptRef) (s s' : State PS) :
  Accelerator.for_each opts (fun opt =>
    let* items :=
      gets (fun s => map_to_list (Optimizer.state (store (world s) opt))) in
    Accelerator.for_each items (fun pv =>
      Accelerator.set_state_entry opt (fst pv)
        (apply_to_collection (snd pv) isinstance_Tensor
           move_data_to_device d)))%acc s
  = (Ok tt, s', []) ->
  forall o,
    Optimizer.state_dict_impl (store (world s') o)
    = Optimizer.state_dict_impl (store (world s) o).
Proof.
  revert s. induction opts as [|opt opts IH]; intros s Hrun o.
  - injection Hrun as <-. reflexivity.
  - cbn [Accelerator.for_each] in Hrun. unfold bind at 1 in Hrun.
    destruct (outer_body d opt s)
      as (s1 & Hrun1 & _ & Hother1 & _ & Hexport1).
    rewrite Hrun1 in Hrun.
    destruct (Accelerator.for_each opts _ s1) as [[r s2] evs] eqn:Hrest.
    injection Hrun as -> -> ->.
    rewrite (IH s1 Hrest o).
    destruct (decide (o = opt)) as [->|Hne]; [exact Hexport1|].
    rewrite (Hother1 o Hne). reflexivity.
Qed.

End ExportAfterMove.

(** X15: the move of the optimizer state shows in what [optimizer_state]
    exports.  For a plugin without an [optimizer_state] of its own and an
    optimizer of the accelerator's list, [optimizer_state] after
    [_move_optimizer_state] returns the optimizer's own export of the
    relocated state. *)
Theorem exported_state_after_move (PS : Type) (self : Accelerator.t PS)
    (device : option Device) (optimizer : OptRef) (s : State PS) :
  let ttp := Accelerator.training_type_plugin self in
  let target := default (TrainingTypePlugin.root_device ttp (world s)) device in
  let before := store (world s) optimizer in
  TrainingTypePlugin.optimizer_state ttp = None ->
  optimizer ∈ optimizers s ->
  exists s1,
    Accelerator._move_optimizer_state self device s = (Ok tt, s1, []) /\
    Accelerator.optimizer_state self optimizer s1
    = (Ok (Optimizer.state_dict_impl before
             ((fun v => apply_to_collection v isinstance_Tensor
                          move_data_to_device target)
                <$> Optimizer.state before)),
       s1, []).
Proof.
  intros ttp target before Hplain Hin.
  destruct (move_optimizer_state_run self device s)
    as (s1 & Hmove & _ & _ & Hstate).
  exists s1. split; [exact Hmove|].
  unfold Accelerator.optimizer_state. fold ttp. rewrite Hplain.
  unfold gets, Optimizer.state_dict.
  rewrite (Hstate optimizer Hin). fold target.
  assert (Hexport : Optimizer.state_dict_impl (store (world s1) optimizer)
                    = Optimizer.state_dict_impl before).
  { revert Hmove.
    unfold Accelerator._move_optimizer_state, bind at 1 2,
      Accelerator.root_device, gets at 1 2.
    cbn beta iota. intros Hmove.
    destruct (Accelerator.for_each (optimizers s) _ s) as [[r s2] evs] eqn:Hloop.
    injection Hmove as -> -> ->.
    exact (outer_loop_export _ _ _ _ Hloop optimizer). }
  rewrite Hexport. reflexivity.
Qed.

(** The concrete optimizer exports its moments on [cuda:0] after the
    move. *)
Lemma exported_state_after_move_witness :
  let self := Accelerator.mk Demo.native_amp (Demo.single_device false) in
  let s := {| optimizers := [1%nat]; lr_schedulers := [];
              optimizer_frequencies := []; world := Demo.world0 |} in
  exists s1,
    Accelerator._move_optimizer_state self None s = (Ok tt, s1, []) /\
    fst (fst (Accelerator.optimizer_state self 1%nat s1))
    = Ok (VDict
            [("w", VDict [("step", VInt 3);
                          ("exp_avg",
                           VTensor {| payload := [4; 5];
                                      device := cuda 0 |})])]).
Proof.
  intros self s.
  destruct (exported_state_after_move nat self None 1%nat s)
    as (s1 & Hmove & Hexport); [reflexivity|apply list_elem_of_here|].
  exists s1. split; [exact Hmove|]. rewrite Hexport. reflexivity.
Defined.

(** ** Optimizers that cannot be built *)

(** X16: [setup_optimizers] assigns all three lists or none.  In a fitting
    or tuning run, when [init_optimizers] raises, [setup_optimizers] raises
    the same exception and the optimizers, the schedulers and the
    frequencies are the ones the accelerator had. *)
Theorem setup_optimizers_keeps_lists_when_build_raises (PS : Type)
    (self : Accelerator.t PS) (trainer : Trainer.t) (s : State PS)
    (e : Exn) (w : World PS) :
  let ttp := Accelerator.training_type_plugin self in
  Trainer.fn (Trainer.state trainer) ∈ [Some FITTING; Some TUNING] ->
  TrainingTypePlugin.init_optimizers ttp trainer
    (TrainingTypePlugin.lightning_module ttp (world s)) (world s)
  = (Raise e, w) ->
  exists s',
    Accelerator.setup_optimizers self trainer s
    = (Raise e, s',
       [Acc_setup_optimizers trainer;
        TT_init_optimizers trainer
          (LightningModule.ref
             <$> TrainingTypePlugin.lightning_module ttp (world s))]) /\
    same_lists s s' /\
    world s' = w.
Proof.
  intros ttp Hfit Hinit. exists (with_world s w).
  rewrite (setup_optimizers_builds self trainer s (Raise e) w Hfit Hinit).
  repeat split.
Qed.

(** A plugin that cannot build its optimizers, on an accelerator that has
    some. *)
Lemma setup_optimizers_keeps_lists_when_build_raises_witness :
  let self := Accelerator.mk Demo.native_amp DemoRest.unbuildable in
  let s := {| optimizers := [1%nat]; lr_schedulers := [];
              optimizer_frequencies := [2]; world := Demo.world0 |} in
  exists s',
    fst (Accelerator.setup_optimizers self Demo.fit s)
    = (Raise (Raised "MisconfigurationException"), s') /\
    optimizers s' = [1%nat] /\ optimizer_frequencies s' = [2].
Proof.
  intros self s.
  destruct (setup_optimizers_keeps_lists_when_build_raises nat self Demo.fit s
              (Raised "MisconfigurationException") Demo.world0)
    as (s' & Hrun & (Hopts & _ & Hfreqs) & _).
  - apply list_elem_of_here.
  - reflexivity.
  - exists s'. rewrite Hrun. auto.
Defined.
